(** * AM2315 south plugin: a shallow embedding of am2315.py

    The plugin polls an AM2315 temperature / humidity sensor over I2C.  This
    file embeds [plugin_init], [plugin_poll], [plugin_reconfigure] and
    [plugin_shutdown] of
    [python/foglamp/plugins/south/am2315/am2315.py] as state-passing
    functions over a store of Python dict objects, and proves properties of
    them.

    Modelling choices.
    - Python [int] is [Z]; [&], [^], [>>] are [Z.land], [Z.lxor], [Z.shiftr].
    - Python [str] is [string]: a sequence of characters with code points
      below 256.  Texts of exceptions are those of CPython 3.11.
    - True division [a / b] of two ints yields a float, the double nearest to
      the exact quotient; the model carries the exact quotient in [Q].
    - A dict is a [gmap string pyval]; dict objects live in a store and are
      named by references, so that aliasing and [copy.deepcopy] are visible.
    - Exceptions are values of [exn]; only the [Exception] hierarchy is
      modelled (asynchronous signals such as KeyboardInterrupt are not).
    - Everything outside the module (the smbus extension, [uuid],
      [utils.local_timestamp], textual forms of objects) is the [Host]
      interface. *)

From Stdlib Require Import ZArith QArith Ascii String.
From stdpp Require Import gmap strings list fin_maps.

Close Scope Q_scope.
Open Scope Z_scope.

(** ** Python values, exceptions, results *)

Abbreviation loc := nat (only parsing).

Inductive pyval : Type :=
  | PyNone
  | PyInt (z : Z)
  | PyFloat (q : Q)
  | PyStr (s : string)
  | PyRef (l : loc)        (* a dict object in the store *)
  | PyBus (b : nat).       (* an smbus.SMBus object *)

Inductive exn : Type :=
  | KeyError (key : string)
  | TypeError (msg : string)
  | ValueError (msg : string)
  | IndexError (msg : string)
  | AttributeError (msg : string)
  | RecursionError (msg : string)
  | OSError (msg : string)
  | PyException (cls msg : string)
  | DataRetrievalError (cause : exn).

Inductive result (A : Type) : Type :=
  | Ok (a : A)
  | Raise (e : exn).
Arguments Ok {A} a.
Arguments Raise {A} e.

Definition is_ref (v : pyval) : bool :=
  match v with PyRef _ => true | _ => false end.

(** ** Built-ins used by the module *)

Module Builtins.

Definition code (c : ascii) : Z := Z.of_N (N_of_ascii c).

(** Whitespace skipped by [int(str, base)] around the literal: the ASCII
    characters tab to carriage return and the space, and the two other
    whitespace characters below 256, NEL and the no-break space.  (The
    separators 28..31, which [str.isspace] accepts, are not skipped.) *)
Definition is_space (c : ascii) : bool :=
  let n := code c in
  ((9 <=? n) && (n <=? 13)) || (n =? 32) || (n =? 133) || (n =? 160).

Definition hex_digit (c : ascii) : option Z :=
  let n := code c in
  if (48 <=? n) && (n <=? 57) then Some (n - 48)
  else if (97 <=? n) && (n <=? 102) then Some (n - 87)
  else if (65 <=? n) && (n <=? 70) then Some (n - 55)
  else None.

Fixpoint lstrip (l : list ascii) : list ascii :=
  match l with
  | c :: r => if is_space c then lstrip r else l
  | [] => []
  end.

Definition strip (l : list ascii) : list ascii :=
  rev (lstrip (rev (lstrip l))).

(** The digit loop of the literal: hexadecimal digits, with single
    underscores allowed between digits only.  [prev] tells whether the
    previous character was an underscore, [seen] whether a digit was read. *)
Fixpoint hex_digits_value (l : list ascii) (prev seen : bool) (acc : Z)
  : option Z :=
  match l with
  | [] => if prev || negb seen then None else Some acc
  | c :: r =>
      if Ascii.eqb c "_"%char then
        if prev then None else hex_digits_value r true seen acc
      else
        match hex_digit c with
        | Some d => hex_digits_value r false true (acc * 16 + d)
        | None => None
        end
  end.

Definition hex_body (l : list ascii) : option Z :=
  let l1 :=
    match l with
    | z :: x :: r =>
        if Ascii.eqb z "0"%char
           && (Ascii.eqb x "x"%char || Ascii.eqb x "X"%char)
        then match r with
             | u :: r' => if Ascii.eqb u "_"%char then r' else r
             | [] => r
             end
        else l
    | _ => l
    end in
  match l1 with
  | u :: _ => if Ascii.eqb u "_"%char then None
              else hex_digits_value l1 false false 0
  | [] => None
  end.

(** [int(s, 16)] on a [str], as CPython 3.6 and later read the literal
    (earlier versions refuse the underscores); [None] stands for
    ValueError. *)
Definition int_base16 (s : string) : option Z :=
  match strip (list_ascii_of_string s) with
  | c :: r =>
      if Ascii.eqb c "-"%char then Z.opp <$> hex_body r
      else if Ascii.eqb c "+"%char then hex_body r
      else hex_body (c :: r)
  | [] => None
  end.

Definition hex_char (d : Z) : ascii :=
  if d <? 10 then ascii_of_N (Z.to_N (48 + d))
  else ascii_of_N (Z.to_N (87 + d)).

Fixpoint hex_digits (fuel : nat) (n : Z) (acc : string) : string :=
  match fuel with
  | O => acc
  | S f =>
      let acc' := String (hex_char (n mod 16)) acc in
      if n / 16 =? 0 then acc' else hex_digits f (n / 16) acc'
  end.

(** [hex(n)] *)
Definition hex (n : Z) : string :=
  (if n <? 0 then "-0x" else "0x")
    +:+ hex_digits (S (Z.to_nat (Z.log2 (Z.abs n)))) (Z.abs n) "".

(** [c.isprintable()] *)
Definition is_printable (c : ascii) : bool :=
  let n := code c in
  ((32 <=? n) && (n <? 127)) || ((161 <=? n) && negb (n =? 173)).

(** The text of one character in [repr(s)], between quotes [quote]. *)
Definition repr_char (quote c : ascii) : string :=
  let backslash := ascii_of_N 92 in
  let n := code c in
  if Ascii.eqb c quote || Ascii.eqb c backslash
  then String backslash (String c "")
  else if n =? 9 then String backslash "t"
  else if n =? 10 then String backslash "n"
  else if n =? 13 then String backslash "r"
  else if is_printable c then String c ""
  else String backslash
         (String "x" (String (hex_char (n / 16))
                        (String (hex_char (n mod 16)) ""))).

Fixpoint has_char (c : ascii) (s : string) : bool :=
  match s with
  | EmptyString => false
  | String x r => Ascii.eqb x c || has_char c r
  end.

Fixpoint repr_body (quote : ascii) (s : string) : string :=
  match s with
  | EmptyString => String quote ""
  | String c r => repr_char quote c +:+ repr_body quote r
  end.

(** [repr(s)] of a str: between single quotes, or between double quotes
    when [s] holds a single quote and no double quote. *)
Definition repr (s : string) : string :=
  let dquote := ascii_of_N 34 in
  let quote :=
    if has_char "'"%char s && negb (has_char dquote s)
    then dquote else "'"%char in
  String quote (repr_body quote s).

Fixpoint replace_go (old new : string) (skip : nat) (s : string) : string :=
  match s with
  | EmptyString => EmptyString
  | String c r =>
      match skip with
      | S k => replace_go old new k r
      | O =>
          if String.prefix old s
          then new +:+ replace_go old new (String.length old - 1) r
          else String c (replace_go old new 0 r)
      end
  end.

Fixpoint interleave (new : string) (s : string) : string :=
  match s with
  | EmptyString => new
  | String c r => new +:+ String c (interleave new r)
  end.

(** [s.replace(old, new)]: every non-overlapping occurrence, left to
    right. *)
Definition str_replace (s old new : string) : string :=
  match old with
  | EmptyString => interleave new s
  | _ => replace_go old new 0 s
  end.

(** [bytearray(iterable_of_ints)] *)
Definition bytearray (l : list Z) : result (list Z) :=
  if forallb (fun b => (0 <=? b) && (b <? 256)) l then Ok l
  else Raise (ValueError "byte must be in range(0, 256)").

(** [a / b] on ints, as the exact quotient. *)
Definition truediv (a b : Z) : result Q :=
  if b =? 0 then Raise (PyException "ZeroDivisionError" "division by zero")
  else Ok (Qdiv (inject_Z a) (inject_Z b)).

End Builtins.

(** [str(ex)]; the text of a KeyError is the repr of the key. *)
Fixpoint exn_str (e : exn) : string :=
  match e with
  | KeyError k => Builtins.repr k
  | TypeError m | ValueError m | IndexError m | AttributeError m
  | RecursionError m | OSError m | PyException _ m => m
  | DataRetrievalError c => exn_str c
  end.

(** The name of the class of a value, as the interpreter's messages show
    it; the class of a bus object is [smbus.SMBus]. *)
Definition type_name (v : pyval) : string :=
  match v with
  | PyNone => "NoneType"
  | PyInt _ => "int"
  | PyFloat _ => "float"
  | PyStr _ => "str"
  | PyRef _ => "dict"
  | PyBus _ => "SMBus"
  end.

(** ** The store, the host and the world *)

Inductive bus_call : Type :=
  | WriteBlock (bus : nat) (addr : pyval) (cmd : Z) (vals : list Z)
  | ReadBlock (bus : nat) (addr : pyval) (cmd : Z) (len : Z).

Definition call_addr (c : bus_call) : pyval :=
  match c with
  | WriteBlock _ a _ _ => a
  | ReadBlock _ a _ _ => a
  end.

Inductive log_level : Type := INFO | ERROR.

(** What the interpreter, the smbus extension and the FogLAMP libraries
    decide.  [E] is the state of that environment (the sensor, the clock, the
    random source). *)
Class Host (E : Type) : Type := {
  (* smbus.SMBus(n): [None] when the device file was opened *)
  SMBus_new : Z -> E -> option exn * E;
  (* bus.write_i2c_block_data(addr, cmd, vals) *)
  write_i2c_block_data : nat -> pyval -> Z -> list Z -> E -> option exn * E;
  (* bus.read_i2c_block_data(addr, cmd, len) *)
  read_i2c_block_data : nat -> pyval -> Z -> Z -> E -> result (list Z) * E;
  (* utils.local_timestamp() *)
  local_timestamp : E -> string * E;
  (* str(uuid.uuid4()) *)
  uuid4_str : E -> string * E;
  (* the text of str(x) for an object x that is not a str *)
  object_str : list (gmap string pyval) -> pyval -> string;
  (* number of nested calls of repr after which str(x) gives up with
     RecursionError *)
  str_recursion_limit : nat;
  (* copy.deepcopy of an SMBus object *)
  deepcopy_SMBus : nat -> result nat;
  (* depth at which copy.deepcopy gives up with RecursionError *)
  recursion_limit : nat
}.

Record world (E : Type) : Type := World {
  heap : list (gmap string pyval);      (* dict objects, by reference *)
  next_bus : nat;                       (* SMBus objects created so far *)
  open_buses : gset nat;                (* SMBus objects holding a device *)
  trace : list bus_call;                (* calls made on the transport *)
  log : list (log_level * string);      (* records sent to _LOGGER *)
  env : E
}.
Arguments World {E}.
Arguments heap {E}.
Arguments next_bus {E}.
Arguments open_buses {E}.
Arguments trace {E}.
Arguments log {E}.
Arguments env {E}.

(** ** copy.deepcopy on the store *)

(** [copy.deepcopy(x, memo)]: atomic values are returned as they are; a dict
    is looked up in [memo], and otherwise a fresh dict is allocated, recorded
    in [memo], and filled with the copies of the items.  The items are visited
    in the order of [map_fold]. *)
Fixpoint deepcopy_rec (copy_bus : nat -> result nat) (fuel : nat) (x : pyval)
    (memo : gmap loc loc) (h : list (gmap string pyval))
  : result (pyval * gmap loc loc * list (gmap string pyval)) :=
  match x with
  | PyRef l =>
      match memo !! l with
      | Some l' => Ok (PyRef l', memo, h)
      | None =>
          match fuel with
          | O => Raise (RecursionError
                          "maximum recursion depth exceeded while calling a Python object")
          | S fuel' =>
              match h !! l with
              | None => Raise (PyException "SystemError" "dangling reference")
              | Some d =>
                  let y := length h in
                  match
                    map_fold
                      (fun key value acc =>
                         match acc with
                         | Ok (memo1, h1) =>
                             match deepcopy_rec copy_bus fuel' value memo1 h1 with
                             | Ok (value', memo2, h2) =>
                                 Ok (memo2, alter (insert key value') y h2)
                             | Raise e => Raise e
                             end
                         | Raise e => Raise e
                         end)
                      (Ok (<[l := y]> memo, h ++ [∅])) d
                  with
                  | Ok (memo', h') => Ok (PyRef y, memo', h')
                  | Raise e => Raise e
                  end
              end
          end
      end
  | PyBus b =>
      match copy_bus b with
      | Ok b' => Ok (PyBus b', memo, h)
      | Raise e => Raise e
      end
  | _ => Ok (x, memo, h)
  end.

(** [x[key]] with a str key, in the store [h] *)
Definition dict_get (h : list (gmap string pyval)) (x : pyval) (key : string)
  : result pyval :=
  match x with
  | PyRef l =>
      match h !! l with
      | Some d =>
          match d !! key with
          | Some v => Ok v
          | None => Raise (KeyError key)
          end
      | None => Raise (PyException "SystemError" "dangling reference")
      end
  | PyStr _ => Raise (TypeError "string indices must be integers, not 'str'")
  | _ => Raise (TypeError ("'" +:+ type_name x
                             +:+ "' object is not subscriptable"))
  end.

(** [repr(x)] of the object [x] stays within [fuel] nested calls of repr.
    Every object takes one call, the items of a dict one level further down;
    a dict that is met again while its own repr is running ([active]) is
    shown as an ellipsis and not entered. *)
Fixpoint repr_fits (h : list (gmap string pyval)) (fuel : nat)
    (active : list loc) (x : pyval) : bool :=
  match fuel with
  | O => false
  | S fuel' =>
      match x with
      | PyRef l =>
          if bool_decide (l ∈ active) then true
          else
            match h !! l with
            | Some d =>
                forallb (fun kv => repr_fits h fuel' (l :: active) kv.2)
                        (map_to_list d)
            | None => true
            end
      | _ => true
      end
  end.

Section Plugin.

Context {E : Type} `{HostE : Host E}.

(** *** A state and exception monad *)

Definition M (A : Type) : Type := world E -> result A * world E.

Definition ret {A} (a : A) : M A := fun w => (Ok a, w).

Definition raise {A} (e : exn) : M A := fun w => (Raise e, w).

Definition bind {A B} (c : M A) (k : A -> M B) : M B :=
  fun w =>
    match c w with
    | (Ok a, w') => k a w'
    | (Raise e, w') => (Raise e, w')
    end.

(** [try: c  except Exception as ex: handler(ex)] *)
Definition try_except {A} (c : M A) (handler : exn -> M A) : M A :=
  fun w =>
    match c w with
    | (Ok a, w') => (Ok a, w')
    | (Raise e, w') => handler e w'
    end.

Definition lift {A} (r : result A) : M A := fun w => (r, w).

Notation "x <- c ;; k" := (bind c (fun x => k))
  (at level 100, c at next level, right associativity).
Notation "c ;;; k" := (bind c (fun _ => k))
  (at level 100, right associativity).

Definition set_heap (h : list (gmap string pyval)) (w : world E) : world E :=
  World h (next_bus w) (open_buses w) (trace w) (log w) (env w).

Definition set_env (e : E) (w : world E) : world E :=
  World (heap w) (next_bus w) (open_buses w) (trace w) (log w) e.

Definition add_call (c : bus_call) (w : world E) : world E :=
  World (heap w) (next_bus w) (open_buses w) (trace w ++ [c]) (log w) (env w).

Definition add_log (r : log_level * string) (w : world E) : world E :=
  World (heap w) (next_bus w) (open_buses w) (trace w) (log w ++ [r]) (env w).

(** *** Operations on objects *)

(** [x[key]] with a str key *)
Definition getitem (x : pyval) (key : string) : M pyval :=
  fun w => (dict_get (heap w) x key, w).

(** [x[key] = v] with a str key *)
Definition setitem (x : pyval) (key : string) (v : pyval) : M unit :=
  fun w =>
    match x with
    | PyRef l =>
        match heap w !! l with
        | Some d => (Ok tt, set_heap (<[l := <[key := v]> d]> (heap w)) w)
        | None => (Raise (PyException "SystemError" "dangling reference"), w)
        end
    | _ => (Raise (TypeError ("'" +:+ type_name x
                                +:+ "' object does not support item assignment")),
            w)
    end.

(** A dict display [{k1: v1, ...}] *)
Definition new_dict (d : gmap string pyval) : M pyval :=
  fun w => (Ok (PyRef (length (heap w))), set_heap (heap w ++ [d]) w).

(** [str(x)], which is also ['{}'.format(x)]: a str is returned as it is;
    the text of another object is its repr, which fails on an object that is
    nested too deeply. *)
Definition py_str (x : pyval) : M string :=
  fun w =>
    match x with
    | PyStr s => (Ok s, w)
    | _ =>
        if repr_fits (heap w) str_recursion_limit [] x
        then (Ok (object_str (heap w) x), w)
        else (Raise (RecursionError
                       "maximum recursion depth exceeded while getting the repr of an object"),
              w)
    end.

(** [int(x, 16)]; the message shows at most 200 characters of the repr of
    the literal. *)
Definition py_int16 (x : pyval) : M Z :=
  match x with
  | PyStr s =>
      match Builtins.int_base16 s with
      | Some n => ret n
      | None =>
          raise (ValueError
                   ("invalid literal for int() with base 16: "
                      +:+ String.substring 0 200 (Builtins.repr s)))
      end
  | _ => raise (TypeError "int() can't convert non-string with explicit base")
  end.

(** [s.replace(old, new)] where [new] is any object *)
Definition py_replace (s old : string) (new : pyval) : M string :=
  match new with
  | PyStr n => ret (Builtins.str_replace s old n)
  | PyNone => raise (TypeError "replace() argument 2 must be str, not None")
  | _ => raise (TypeError ("replace() argument 2 must be str, not "
                             +:+ type_name new))
  end.

(** [copy.deepcopy(x)]; a copy that fails leaves only garbage behind. *)
Definition deepcopy (x : pyval) : M pyval :=
  fun w =>
    match deepcopy_rec deepcopy_SMBus recursion_limit x ∅ (heap w) with
    | Ok (y, _, h') => (Ok y, set_heap h' w)
    | Raise e => (Raise e, w)
    end.

(** [smbus.SMBus(n)] *)
Definition SMBus (n : Z) : M pyval :=
  fun w =>
    match SMBus_new n (env w) with
    | (None, e') =>
        (Ok (PyBus (next_bus w)),
         World (heap w) (S (next_bus w)) ({[next_bus w]} ∪ open_buses w)
               (trace w) (log w) e')
    | (Some ex, e') => (Raise ex, set_env e' w)
    end.

Definition bus_write (bus addr : pyval) (cmd : Z) (vals : list Z) : M unit :=
  fun w =>
    match bus with
    | PyBus b =>
        let w1 := add_call (WriteBlock b addr cmd vals) w in
        match write_i2c_block_data b addr cmd vals (env w) with
        | (None, e') => (Ok tt, set_env e' w1)
        | (Some ex, e') => (Raise ex, set_env e' w1)
        end
    | _ => (Raise (AttributeError
                     ("'" +:+ type_name bus
                        +:+ "' object has no attribute 'write_i2c_block_data'")),
            w)
    end.

Definition bus_read (bus addr : pyval) (cmd len : Z) : M (list Z) :=
  fun w =>
    match bus with
    | PyBus b =>
        let w1 := add_call (ReadBlock b addr cmd len) w in
        match read_i2c_block_data b addr cmd len (env w) with
        | (r, e') => (r, set_env e' w1)
        end
    | _ => (Raise (AttributeError
                     ("'" +:+ type_name bus
                        +:+ "' object has no attribute 'read_i2c_block_data'")),
            w)
    end.

Definition utils_local_timestamp : M string :=
  fun w => let '(s, e') := local_timestamp (env w) in (Ok s, set_env e' w).

Definition str_uuid4 : M string :=
  fun w => let '(s, e') := uuid4_str (env w) in (Ok s, set_env e' w).

Definition logger_info (msg : string) : M unit :=
  fun w => (Ok tt, add_log (INFO, msg) w).

Definition logger_exception (msg : string) : M unit :=
  fun w => (Ok tt, add_log (ERROR, msg) w).

(** [sensor_response[i]] on a bytearray *)
Definition byte_at (sensor_response : list Z) (i : nat) : result Z :=
  match sensor_response !! i with
  | Some b => Ok b
  | None => Raise (IndexError "bytearray index out of range")
  end.

(** *** The decoding steps of plugin_poll (lines 130-146) *)

(** One round of the inner loop (lines 140-144). *)
Definition crc_round (calc_crc : Z) : Z :=
  if negb (Z.land calc_crc 0x01 =? 0)
  then Z.lxor (Z.shiftr calc_crc 1) 0xA001
  else Z.shiftr calc_crc 1.

(** The body of the outer loop for one byte (lines 138-144):
    [for i in range(1,9)] runs the round eight times. *)
Definition crc_update (calc_crc byte : Z) : Z :=
  fold_left (fun c (_ : nat) => crc_round c) (seq 1 8) (Z.lxor calc_crc byte).

(** Lines 136-144: the checksum over [sensor_response[0:6]]. *)
Definition calc_crc (sensor_response : list Z) : Z :=
  fold_left crc_update (take 6 sensor_response) 0xFFFF.

(** Line 134. *)
Definition received_crc (sensor_response : list Z) : result Z :=
  match byte_at sensor_response 7, byte_at sensor_response 6 with
  | Ok hi, Ok lo => Ok (hi * 256 + lo)
  | Raise e, _ => Raise e
  | _, Raise e => Raise e
  end.

(** Line 130. *)
Definition temperature_of (sensor_response : list Z) : result Q :=
  match byte_at sensor_response 4, byte_at sensor_response 5 with
  | Ok hi, Ok lo => Builtins.truediv (hi * 256 + lo) 10
  | Raise e, _ => Raise e
  | _, Raise e => Raise e
  end.

(** Line 132. *)
Definition humidity_of (sensor_response : list Z) : result Q :=
  match byte_at sensor_response 2, byte_at sensor_response 3 with
  | Ok hi, Ok lo => Builtins.truediv (hi * 256 + lo) 10
  | Raise e, _ => Raise e
  | _, Raise e => Raise e
  end.

(** *** The plugin entry points *)

Definition plugin_init (config : pyval) : M pyval :=
  data <- deepcopy config ;;
  bus <- SMBus 1 ;;
  (setitem data "bus" bus ;;;
   logger_info "AM2315 initialized" ;;;
   ret data).

(** Lines 119-156, the body of the outer [try]. *)
Definition poll_body (bus sensor_add : pyval) (asset_name : string)
  : M pyval :=
  let start_add := 0x00 in
  let function_code := 0x03 in
  let register_number := 0x04 in
  let response_bytes := 8 in
  (* wake up call *)
  (try_except
     (bus_write bus sensor_add function_code [start_add; register_number])
     (fun _ => ret tt) ;;;
   (* request data *)
   bus_write bus sensor_add function_code [start_add; register_number] ;;;
   (* read data *)
   raw <- bus_read bus sensor_add function_code response_bytes ;;
   sensor_response <- lift (Builtins.bytearray raw) ;;
   temperature <- lift (temperature_of sensor_response) ;;
   humidity <- lift (humidity_of sensor_response) ;;
   crc <- lift (received_crc sensor_response) ;;
   let calc := calc_crc sensor_response in
   ((if negb (calc =? crc) then ret tt else ret tt) ;;;
    time_stamp <- utils_local_timestamp ;;
    key <- str_uuid4 ;;
    readings <- new_dict (<["temperature" := PyFloat temperature]>
                            (<["humidity" := PyFloat humidity]> ∅)) ;;
    new_dict (<["asset" := PyStr asset_name]>
                (<["timestamp" := PyStr time_stamp]>
                   (<["key" := PyStr key]>
                      (<["readings" := readings]> ∅)))))).

(** Lines 106-115, before the [try]. *)
Definition poll_prelude (handle : pyval) : M (pyval * pyval * string) :=
  bus <- getitem handle "bus" ;;
  item <- getitem handle "i2cAddress" ;;
  i2c_address <- getitem item "value" ;;
  n <- py_int16 i2c_address ;;
  let sensor_add := PyStr (Builtins.hex n) in
  item' <- getitem handle "assetName" ;;
  template <- getitem item' "value" ;;
  formatted <- py_str template ;;
  asset_name <- py_replace formatted "%M" i2c_address ;;
  ret (bus, sensor_add, asset_name).

Definition plugin_poll (handle : pyval) : M pyval :=
  p <- poll_prelude handle ;;
  let '(bus, sensor_add, asset_name) := p in
  try_except
    (poll_body bus sensor_add asset_name)
    (fun ex =>
       logger_exception ("AM2315 exception: " +:+ exn_str ex) ;;;
       raise (DataRetrievalError ex)).

Definition plugin_reconfigure (handle new_config : pyval) : M pyval :=
  old <- py_str handle ;;
  new <- py_str new_config ;;
  (logger_info ("Old config for AM2315 plugin " +:+ old
                  +:+ " " +:+ String "010" EmptyString
                  +:+ " new config " +:+ new) ;;;
   new_handle <- deepcopy new_config ;;
   (setitem new_handle "restart" (PyStr "no") ;;;
    ret new_handle)).

Definition plugin_shutdown (handle : pyval) : M pyval :=
  logger_info "AM2315 poll plugin shut down." ;;;
  ret PyNone.

End Plugin.

(** ** A scripted host, for running the plugin on concrete inputs

    The sensor's answers are read off two scripts: the outcomes of the
    successive block writes and of the successive block reads. *)

Module Sim.

Record sim : Type := Sim {
  sim_open : option exn;
  sim_writes : list (option exn);
  sim_reads : list (result (list Z));
  sim_tick : nat
}.

Definition sim_write (e : sim) : option exn * sim :=
  match sim_writes e with
  | r :: rest => (r, Sim (sim_open e) rest (sim_reads e) (sim_tick e))
  | [] => (None, e)
  end.

Definition sim_read (e : sim) : result (list Z) * sim :=
  match sim_reads e with
  | r :: rest => (r, Sim (sim_open e) (sim_writes e) rest (sim_tick e))
  | [] => (Raise (OSError "[Errno 121] Remote I/O error"), e)
  end.

Definition sim_next (e : sim) : sim :=
  Sim (sim_open e) (sim_writes e) (sim_reads e) (S (sim_tick e)).

#[global] Instance sim_host : Host sim := {|
  SMBus_new := fun _ e => (sim_open e, e);
  write_i2c_block_data := fun _ _ _ _ e => sim_write e;
  read_i2c_block_data := fun _ _ _ _ e => sim_read e;
  local_timestamp := fun e => ("2018-06-01 12:00:00.000000+00:00", sim_next e);
  uuid4_str := fun e =>
    ("00000000-0000-4000-8000-00000000000"
       +:+ String (Builtins.hex_char (Z.of_nat (sim_tick e) mod 16)) "",
     sim_next e);
  object_str := fun _ _ => "<object>";
  str_recursion_limit := 1000;
  deepcopy_SMBus := fun _ => Raise (TypeError "cannot pickle 'SMBus' object");
  recursion_limit := 1000
|}.

(** The default configuration with its values filled in, as the host hands
    it to [plugin_init]: the category at reference 0, its items at 1-3. *)
Definition item (value : string) : gmap string pyval :=
  <["value" := PyStr value]> (<["type" := PyStr "string"]> ∅).

Definition category : gmap string pyval :=
  <["assetName" := PyRef 1%nat]>
    (<["i2cAddress" := PyRef 2%nat]>
       (<["pollInterval" := PyRef 3%nat]> ∅)).

Definition config_heap (asset_name i2c_address : string)
  : list (gmap string pyval) :=
  [ category; item asset_name; item i2c_address; item "5000" ].

Definition default_heap := config_heap "am2315/%M/" "0x5C".

Definition start (h : list (gmap string pyval)) (e : sim) : world sim :=
  World h 0%nat ∅ [] [] e.

(** A sensor that is asleep at the wake-up call and then answers [resp]. *)
Definition asleep_then (resp : list Z) : sim :=
  Sim None [Some (OSError "[Errno 121] Remote I/O error"); None] [Ok resp] 0.

(** The world after [plugin_init] on the default configuration; the handle
    is the dict at reference 4. *)
Definition ready (asset_name i2c_address : string) (e : sim) : world sim :=
  snd (plugin_init (PyRef 0%nat) (start (config_heap asset_name i2c_address) e)).

Definition good_response : list Z := [3; 4; 1; 2; 1; 8; 81; 130].

(** The same reading with a checksum that does not match. *)
Definition noisy_response : list Z := [3; 4; 1; 2; 1; 8; 0; 0].

(** A session on the default configuration, the sensor asleep and about
    to answer [resp]. *)
Definition session_world (resp : list Z) : world sim :=
  ready "am2315/%M/" "0x5C" (asleep_then resp).


(** The world in which the host calls [plugin_init] on the default
    configuration. *)
Definition fresh_world : world sim :=
  start default_heap (asleep_then good_response).

(** A sensor that does not acknowledge the data request either. *)
Definition deaf : sim :=
  Sim None [Some (OSError "[Errno 121] Remote I/O error");
            Some (OSError "[Errno 121] Remote I/O error")] [] 0.

End Sim.

(** ** Reference definitions *)

Module Reference.

(** CRC-16/MODBUS as the design describes it: the accumulator starts at
    0xFFFF; each byte is XORed into it, followed by eight steps that shift
    right and XOR with 0xA001 when the bit shifted out was set. *)
Definition shift_step (acc : Z) : Z :=
  if Z.testbit acc 0 then Z.lxor (Z.shiftr acc 1) 0xA001 else Z.shiftr acc 1.

Fixpoint crc16_modbus_from (acc : Z) (data : list Z) : Z :=
  match data with
  | [] => acc
  | b :: rest => crc16_modbus_from (Nat.iter 8 shift_step (Z.lxor acc b)) rest
  end.

Definition crc16_modbus (data : list Z) : Z := crc16_modbus_from 0xFFFF data.

End Reference.

(** ** Predicates used in the statements *)

(** [old in s] for a non-empty [old]: [old] occurs in [s]. *)
Fixpoint occurs (old s : string) : bool :=
  match s with
  | EmptyString => false
  | String _ r => String.prefix old s || occurs old r
  end.

(** [handle] is a session handle: it carries the open bus [b], the
    configured address and the asset-name template. *)
Definition session (h : list (gmap string pyval)) (handle : pyval) (b : nat)
    (i2c_address template : string) : Prop :=
  dict_get h handle "bus" = Ok (PyBus b)
  /\ (exists item, dict_get h handle "i2cAddress" = Ok item
                   /\ dict_get h item "value" = Ok (PyStr i2c_address))
  /\ (exists item, dict_get h handle "assetName" = Ok item
                   /\ dict_get h item "value" = Ok (PyStr template)).

(** The two dicts of a Reading: the inner [readings] dict, allocated at
    reference [l], and the record that points to it. *)
Definition reading_dicts (asset ts key : string) (temperature humidity : Q)
    (l : loc) : list (gmap string pyval) :=
  [ <["temperature" := PyFloat temperature]>
      (<["humidity" := PyFloat humidity]> ∅);
    <["asset" := PyStr asset]>
      (<["timestamp" := PyStr ts]>
         (<["key" := PyStr key]>
            (<["readings" := PyRef l]> ∅))) ].

(** The calls that one poll makes on the transport. *)
Definition poll_calls (b : nat) (addr : pyval) : list bus_call :=
  [WriteBlock b addr 3 [0; 4]; WriteBlock b addr 3 [0; 4]; ReadBlock b addr 3 8].

Section Answers.

Context {E : Type} `{HostE : Host E}.

(** From the state [e], the host lets one poll through: whatever happens to
    the wake-up write, the data request is accepted, the read returns
    [raw], and the clock and the random source give [ts] and [key]. *)
Definition sensor_answers (b : nat) (addr : pyval) (e : E)
    (raw : list Z) (ts key : string) (e' : E) : Prop :=
  exists r1 e1 e2 e3 e4,
    write_i2c_block_data b addr 3 [0; 4] e = (r1, e1)
    /\ write_i2c_block_data b addr 3 [0; 4] e1 = (None, e2)
    /\ read_i2c_block_data b addr 3 8 e2 = (Ok raw, e3)
    /\ local_timestamp e3 = (ts, e4)
    /\ uuid4_str e4 = (key, e').

End Answers.

(** [json_value h n v]: in the store [h], [v] is a JSON document of depth at
    most [n]: None, numbers and strings at the leaves, dicts inside. *)
Inductive json_value (h : list (gmap string pyval)) : nat -> pyval -> Prop :=
  | json_none n : json_value h n PyNone
  | json_int n z : json_value h n (PyInt z)
  | json_float n q : json_value h n (PyFloat q)
  | json_str n s : json_value h n (PyStr s)
  | json_dict n l d :
      h !! l = Some d ->
      (forall k v, d !! k = Some v -> json_value h n v) ->
      json_value h (S n) (PyRef l).

(** [x == y] for [x] in the store [h1] and [y] in the store [h2]: equal
    leaves, and dicts with the same keys and equal values. *)
Inductive same_value (h1 h2 : list (gmap string pyval))
  : pyval -> pyval -> Prop :=
  | same_none : same_value h1 h2 PyNone PyNone
  | same_int z : same_value h1 h2 (PyInt z) (PyInt z)
  | same_float q1 q2 : Qeq q1 q2 -> same_value h1 h2 (PyFloat q1) (PyFloat q2)
  | same_str s : same_value h1 h2 (PyStr s) (PyStr s)
  | same_bus b : same_value h1 h2 (PyBus b) (PyBus b)
  | same_dict l1 l2 d1 d2 :
      h1 !! l1 = Some d1 -> h2 !! l2 = Some d2 ->
      dom d1 = dom d2 ->
      (forall k v1 v2,
          d1 !! k = Some v1 -> d2 !! k = Some v2 -> same_value h1 h2 v1 v2) ->
      same_value h1 h2 (PyRef l1) (PyRef l2).

(** [u] is an item of the dict [v]. *)
Definition child (h : list (gmap string pyval)) (v u : pyval) : Prop :=
  exists a d k, v = PyRef a /\ h !! a = Some d /\ d !! k = Some u.

(** ** The invariant of copy.deepcopy *)

(** [v'] is what the copy of [v] is, given the memo. *)
Definition copied (copy_bus : nat -> result nat) (memo : gmap loc loc)
    (v v' : pyval) : Prop :=
  match v with
  | PyRef l => exists l', v' = PyRef l' /\ memo !! l = Some l'
  | PyBus b => exists b', v' = PyBus b' /\ copy_bus b = Ok b'
  | _ => v' = v
  end.

(** The items present in the copy [l'] are copies of the items of [l]. *)
Definition entry_ok (copy_bus : nat -> result nat)
    (h0 : list (gmap string pyval)) (memo : gmap loc loc)
    (h : list (gmap string pyval)) (l l' : loc) : Prop :=
  exists d d',
    h0 !! l = Some d /\ h !! l' = Some d'
    /\ forall k v', d' !! k = Some v' ->
                    exists v, d !! k = Some v /\ copied copy_bus memo v v'.

(** The copy [l'] has all the keys of [l]. *)
Definition complete (h0 h : list (gmap string pyval)) (l l' : loc) : Prop :=
  exists d d', h0 !! l = Some d /\ h !! l' = Some d' /\ dom d' = dom d.

(** The invariant of a deep copy of objects of [h0], in progress. *)
Record copy_inv (copy_bus : nat -> result nat)
    (h0 : list (gmap string pyval)) (memo : gmap loc loc)
    (h : list (gmap string pyval)) : Prop := CopyInv {
  inv_prefix : exists ext, h = h0 ++ ext;
  inv_range : forall l l', memo !! l = Some l' ->
                           (length h0 <= l' < length h)%nat;
  inv_inj : forall l1 l2 l', memo !! l1 = Some l' -> memo !! l2 = Some l' ->
                             l1 = l2;
  inv_entry : forall l l', memo !! l = Some l' ->
                           entry_ok copy_bus h0 memo h l l'
}.

(** The copy [l'] is finished: it has the keys of [l] and copies of its
    items. *)
Definition entry_full (copy_bus : nat -> result nat)
    (h0 : list (gmap string pyval)) (memo : gmap loc loc)
    (h : list (gmap string pyval)) (l l' : loc) : Prop :=
  exists d d',
    h0 !! l = Some d /\ h !! l' = Some d' /\ dom d' = dom d
    /\ forall k v v', d !! k = Some v -> d' !! k = Some v' ->
                      copied copy_bus memo v v'.

(** The state of the loop that copies the items of [d], the dict at [l],
    into the fresh dict at [y]; [m] holds the items copied so far. *)
Definition loop_inv (copy_bus : nat -> result nat)
    (h0 : list (gmap string pyval)) (memo : gmap loc loc) (h : list (gmap string pyval))
    (l : loc) (d : gmap string pyval)
    (r : result (gmap loc loc * list (gmap string pyval)))
    (m : gmap string pyval) : Prop :=
  m ⊆ d ->
  exists memo_i h_i,
    r = Ok (memo_i, h_i)
    /\ copy_inv copy_bus h0 memo_i h_i
    /\ <[l := length h]> memo ⊆ memo_i
    /\ (exists ext, h_i = h ++ ext)
    /\ (exists dy, h_i !! length h = Some dy /\ dom dy = dom m)
    /\ (forall l1 l1', memo_i !! l1 = Some l1' ->
                       <[l := length h]> memo !! l1 = None ->
                       (S (length h) <= l1')%nat /\ complete h0 h_i l1 l1').

(** What a call of [deepcopy_rec] on [x] establishes. *)
Definition copy_post (copy_bus : nat -> result nat)
    (h0 : list (gmap string pyval)) (memo : gmap loc loc) (h : list (gmap string pyval))
    (x x' : pyval) (memo' : gmap loc loc) (h' : list (gmap string pyval))
  : Prop :=
  copy_inv copy_bus h0 memo' h'
  /\ memo ⊆ memo'
  /\ (exists ext, h' = h ++ ext)
  /\ copied copy_bus memo' x x'
  /\ (forall l l', memo' !! l = Some l' -> memo !! l = None ->
                    (length h <= l')%nat /\ complete h0 h' l l')
  /\ (forall l, x = PyRef l -> memo !! l = None -> x' = PyRef (length h)).


(** ** The module-level configuration and plugin_info *)

(** The items of [_DEFAULT_CONFIG] (lines 27-52). *)
Definition default_plugin_item : gmap string pyval :=
  <["description" := PyStr "AM2315 Poll Plugin"]>
    (<["type" := PyStr "string"]>
       (<["default" := PyStr "am2315"]>
          (<["readonly" := PyStr "true"]> ∅))).

Definition default_assetName_item : gmap string pyval :=
  <["description" := PyStr "Asset name"]>
    (<["type" := PyStr "string"]>
       (<["default" := PyStr "am2315/%M/"]>
          (<["order" := PyStr "1"]> ∅))).

Definition default_i2cAddress_item : gmap string pyval :=
  <["description" := PyStr "I2C address in hex"]>
    (<["type" := PyStr "string"]>
       (<["default" := PyStr "0x5C"]>
          (<["order" := PyStr "2"]> ∅))).

Definition default_pollInterval_item : gmap string pyval :=
  <["description" :=
      PyStr "The interval between poll calls to the South device poll routine expressed in milliseconds."]>
    (<["type" := PyStr "integer"]>
       (<["default" := PyStr "5000"]>
          (<["order" := PyStr "2"]>
             (<["minimum" := PyStr "1000"]> ∅)))).

Section ModuleLevel.

Context {E : Type} `{HostE : Host E}.

(** Lines 26-53: the dict display that the module binds to
    [_DEFAULT_CONFIG] when it is loaded.  The display builds the four items,
    in the order in which they are written, and then the dict that holds
    them; the result is the reference of that dict. *)
Definition load_DEFAULT_CONFIG : @M E pyval :=
  bind (new_dict default_plugin_item) (fun plugin =>
  bind (new_dict default_assetName_item) (fun assetName =>
  bind (new_dict default_i2cAddress_item) (fun i2cAddress =>
  bind (new_dict default_pollInterval_item) (fun pollInterval =>
  new_dict (<["plugin" := plugin]>
              (<["assetName" := assetName]>
                 (<["i2cAddress" := i2cAddress]>
                    (<["pollInterval" := pollInterval]> ∅)))))))).

(** Lines 58-74; [_DEFAULT_CONFIG] is the module-level object, which the
    returned dict refers to. *)
Definition plugin_info (_DEFAULT_CONFIG : pyval) : @M E pyval :=
  new_dict (<["name" := PyStr "AM2315 Poll Plugin"]>
              (<["version" := PyStr "1.0"]>
                 (<["mode" := PyStr "poll"]>
                    (<["type" := PyStr "south"]>
                       (<["interface" := PyStr "1.0"]>
                          (<["config" := _DEFAULT_CONFIG]> ∅)))))).

(** The world [w] with the log replaced by [lg]. *)
Definition with_log (lg : list (log_level * string)) (w : world E) : world E :=
  World (heap w) (next_bus w) (open_buses w) (trace w) lg (env w).

End ModuleLevel.

(** ** More runs on the scripted host *)

Module Scenario.

(** A sensor that accepts the data request and then answers [r]. *)
Definition answering (r : result (list Z)) : Sim.sim :=
  Sim.Sim None [Some (OSError "[Errno 121] Remote I/O error"); None] [r] 0.

(** A session on the default configuration with the sensor [e]. *)
Definition session_with (e : Sim.sim) : world Sim.sim :=
  Sim.ready "am2315/%M/" "0x5C" e.

(** A host whose bus device cannot be opened. *)
Definition no_device : Sim.sim :=
  Sim.Sim (Some (OSError "[Errno 2] No such file or directory")) [] [] 0.

(** The session of [Sim.session_world] after [plugin_reconfigure] with the
    configuration at reference 0; the new handle is the dict at
    reference 8. *)
Definition reconfigured : world Sim.sim :=
  snd (plugin_reconfigure (PyRef 4%nat) (PyRef 0%nat)
         (Sim.session_world Sim.good_response)).

(** A store whose handle, the dict at reference 4, holds None under
    "bus". *)
Definition without_bus_object : world Sim.sim :=
  Sim.start (Sim.default_heap ++ [<["bus" := PyNone]> Sim.category])
            (Sim.asleep_then Sim.good_response).

(** A session whose configured address is a tab followed by ZZ. *)
Definition tab_address : world Sim.sim :=
  Sim.ready "am2315/%M/" (String "009" "ZZ") (Sim.asleep_then Sim.good_response).

(** An empty world in which the module has been loaded;
    [_DEFAULT_CONFIG] is the dict at reference 4. *)
Definition loaded : world Sim.sim :=
  snd (load_DEFAULT_CONFIG (Sim.start [] (Sim.asleep_then Sim.good_response))).

End Scenario.

(** ** More definitions used in statements *)

(** The world after the two writes and the read of a poll. *)
Definition after_read {E : Type} (b : nat) (addr : pyval) (e : E)
    (w : world E) : world E :=
  World (heap w) (next_bus w) (open_buses w) (trace w ++ poll_calls b addr)
        (log w) e.

(** A value that has no items and is no SMBus object either. *)
Definition is_scalar (v : pyval) : bool :=
  match v with
  | PyNone | PyInt _ | PyFloat _ | PyStr _ => true
  | PyRef _ | PyBus _ => false
  end.

(** The dicts that loading the module appends to a store of [base] dicts:
    the four items and the dict of [_DEFAULT_CONFIG] itself. *)
Definition default_config_dicts (base : nat) : list (gmap string pyval) :=
  [ default_plugin_item; default_assetName_item; default_i2cAddress_item;
    default_pollInterval_item;
    <["plugin" := PyRef base]>
      (<["assetName" := PyRef (S base)]>
         (<["i2cAddress" := PyRef (S (S base))]>
            (<["pollInterval" := PyRef (S (S (S base)))]> ∅))) ].

(** ** Evaluation of the hypotheses on the scripted host *)

Ltac session_by_eval :=
  split; [vm_compute; reflexivity |];
  split; [exists (PyRef 7%nat) | exists (PyRef 6%nat)];
  split; vm_compute; reflexivity.

Ltac answers_by_eval resp :=
  exists (Some (OSError "[Errno 121] Remote I/O error")),
    (Sim.Sim None [None] [Ok resp] 0), (Sim.Sim None [] [Ok resp] 0),
    (Sim.Sim None [] [] 0), (Sim.Sim None [] [] 1);
  repeat split; vm_compute; reflexivity.

(** ** The checksum *)

Section Checksum.

Lemma land_1_odd c : Z.land c 1 = Z.b2z (Z.odd c).
Proof.
  change 1 with (Z.ones 1). rewrite Z.land_ones by lia.
  rewrite <- Z.bit0_odd. symmetry. apply Z.bit0_mod.
Qed.

Lemma crc_round_odd c :
  crc_round c = Z.lxor (Z.shiftr c 1) (if Z.odd c then 0xA001 else 0).
Proof.
  unfold crc_round. rewrite land_1_odd.
  destruct (Z.odd c); simpl; [done | by rewrite Z.lxor_0_r].
Qed.

Lemma crc_round_reference c : crc_round c = Reference.shift_step c.
Proof.
  rewrite crc_round_odd. unfold Reference.shift_step.
  rewrite Z.bit0_odd. destruct (Z.odd c); [done | apply Z.lxor_0_r].
Qed.

Lemma odd_lxor x y : Z.odd (Z.lxor x y) = xorb (Z.odd x) (Z.odd y).
Proof. rewrite <- !Z.bit0_odd. apply Z.lxor_spec. Qed.

Lemma lxor_swap a b c d :
  Z.lxor (Z.lxor a b) (Z.lxor c d) = Z.lxor (Z.lxor a c) (Z.lxor b d).
Proof.
  rewrite !Z.lxor_assoc. f_equal.
  rewrite <- !Z.lxor_assoc. f_equal. apply Z.lxor_comm.
Qed.

(** The round is linear over GF(2). *)
Lemma crc_round_lxor x y :
  crc_round (Z.lxor x y) = Z.lxor (crc_round x) (crc_round y).
Proof.
  rewrite !crc_round_odd, Z.shiftr_lxor, odd_lxor, lxor_swap. f_equal.
  destruct (Z.odd x), (Z.odd y); reflexivity.
Qed.

Lemma crc_update_unfold c b :
  crc_update c b = Nat.iter 8 crc_round (Z.lxor c b).
Proof. reflexivity. Qed.

Lemma iter_round_lxor n x y :
  Nat.iter n crc_round (Z.lxor x y)
  = Z.lxor (Nat.iter n crc_round x) (Nat.iter n crc_round y).
Proof.
  induction n as [|n IH]; [done |].
  simpl. by rewrite IH, crc_round_lxor.
Qed.

Lemma crc_update_lxor c d b e :
  crc_update (Z.lxor c d) (Z.lxor b e)
  = Z.lxor (crc_update c b) (crc_update d e).
Proof. by rewrite !crc_update_unfold, lxor_swap, iter_round_lxor. Qed.

(** A difference [d] in the accumulator travels through the remaining
    bytes as it would through as many zero bytes. *)
Lemma crc_fold_lxor bs c d :
  fold_left crc_update bs (Z.lxor c d)
  = Z.lxor (fold_left crc_update bs c)
           (fold_left crc_update (replicate (length bs) 0) d).
Proof.
  revert c d. induction bs as [|b bs IH]; intros c d; [done |].
  simpl. rewrite <- IH. f_equal.
  rewrite <- (Z.lxor_0_r b) at 1. apply crc_update_lxor.
Qed.

Lemma crc_fold_reference bs c :
  fold_left crc_update bs c = Reference.crc16_modbus_from c bs.
Proof.
  revert c. induction bs as [|b bs IH]; intros c; [done |].
  simpl. rewrite IH. f_equal. rewrite crc_update_unfold.
  generalize (Z.lxor c b). intros z.
  do 8 (simpl; rewrite ?crc_round_reference); done.
Qed.

(** A single flipped bit leaves a non-zero difference after up to five
    further bytes. *)
Lemma single_bit_survives k n :
  0 <= k < 8 -> (n <= 5)%nat ->
  fold_left crc_update (replicate n 0) (crc_update 0 (2 ^ k)) <> 0.
Proof.
  intros Hk Hn.
  assert (Hks : k = 0 \/ k = 1 \/ k = 2 \/ k = 3 \/ k = 4 \/ k = 5
                \/ k = 6 \/ k = 7) by lia.
  assert (Hns : n = 0%nat \/ n = 1%nat \/ n = 2%nat \/ n = 3%nat
                \/ n = 4%nat \/ n = 5%nat) by lia.
  repeat (destruct Hks as [-> | Hks]);
    try subst k;
    repeat (destruct Hns as [-> | Hns]); try subst n;
    vm_compute; discriminate.
Qed.

Lemma lxor_fixed a d : Z.lxor a d = a -> d = 0.
Proof.
  intros H. apply (f_equal (Z.lxor a)) in H.
  by rewrite <- Z.lxor_assoc, Z.lxor_nilpotent, Z.lxor_0_l in H.
Qed.

End Checksum.

(** C2: the checksum computed by plugin_poll is CRC-16/MODBUS over the first
    six bytes of the response (and the reference definition has the standard
    check value 0x4B37 on "123456789"); the received checksum is
    byte[7] * 256 + byte[6]; flipping any single bit of one of the first six
    bytes changes the computed checksum. *)
Theorem calc_crc_is_crc16_modbus (sensor_response : list Z) :
  calc_crc sensor_response = Reference.crc16_modbus (take 6 sensor_response)
  /\ Reference.crc16_modbus [49; 50; 51; 52; 53; 54; 55; 56; 57] = 0x4B37
  /\ (forall b0 b1 b2 b3 b4 b5 b6 b7,
        sensor_response = [b0; b1; b2; b3; b4; b5; b6; b7] ->
        received_crc sensor_response = Ok (b7 * 256 + b6))
  /\ (forall (i : nat) (b k : Z),
        (i < 6)%nat -> sensor_response !! i = Some b -> 0 <= k < 8 ->
        calc_crc (<[i := Z.lxor b (2 ^ k)]> sensor_response)
        <> calc_crc sensor_response).
Proof.
  split; [apply crc_fold_reference |].
  split; [by vm_compute |].
  split; [by intros; subst |].
  intros i b k Hi Hb Hk Heq.
  apply list_elem_of_split_length in Hb as (pre & post & -> & ->).
  unfold calc_crc in Heq.
  rewrite insert_app_r_alt, Nat.sub_diag in Heq by lia. simpl in Heq.
  rewrite !take_app_ge in Heq by lia.
  destruct (6 - length pre)%nat as [|m] eqn:Hm; [lia |].
  simpl in Heq. rewrite !fold_left_app in Heq. simpl in Heq.
  set (c := fold_left crc_update pre 65535) in Heq.
  replace (crc_update c (Z.lxor b (2 ^ k)))
    with (Z.lxor (crc_update c b) (crc_update 0 (2 ^ k))) in Heq.
  2:{ rewrite <- crc_update_lxor. by rewrite Z.lxor_0_r. }
  rewrite crc_fold_lxor in Heq. apply lxor_fixed in Heq.
  revert Heq. apply single_bit_survives; [done |].
  rewrite length_take. lia.
Qed.

(** ** plugin_poll *)

Section Poll.

Context {E : Type} `{HostE : Host E}.

Lemma bytearray_ok raw :
  Forall (fun x => 0 <= x < 256) raw -> Builtins.bytearray raw = Ok raw.
Proof.
  intros H. unfold Builtins.bytearray.
  replace (forallb _ raw) with true; [done |].
  symmetry. apply forallb_forall. intros x Hx.
  rewrite Forall_forall in H. apply list_elem_of_In in Hx.
  apply H in Hx. lia.
Qed.

(** The statements before the [try] read the store and change nothing. *)
Lemma poll_prelude_pure handle (w w' : world E) r :
  poll_prelude handle w = (r, w') -> w' = w.
Proof.
  unfold poll_prelude, bind, getitem, py_int16, py_str, py_replace, ret, raise.
  intros H. repeat case_match; simplify_eq; done.
Qed.

Lemma poll_prelude_session handle (w : world E) b a t n :
  session (heap w) handle b a t ->
  Builtins.int_base16 a = Some n ->
  poll_prelude handle w
  = (Ok (PyBus b, PyStr (Builtins.hex n), Builtins.str_replace t "%M" a), w).
Proof.
  intros (Hb & (i1 & Hi1 & Hv1) & (i2 & Hi2 & Hv2)) Hn.
  unfold poll_prelude, bind, getitem, py_int16, py_str, py_replace, ret.
  by rewrite Hb, Hi1, Hv1, Hn, Hi2, Hv2.
Qed.

Lemma plugin_poll_success handle (w : world E) b addr asset
    b0 b1 b2 b3 b4 b5 b6 b7 ts key e' :
  poll_prelude handle w = (Ok (PyBus b, addr, asset), w) ->
  sensor_answers b addr (env w) [b0; b1; b2; b3; b4; b5; b6; b7] ts key e' ->
  Forall (fun x => 0 <= x < 256) [b0; b1; b2; b3; b4; b5; b6; b7] ->
  plugin_poll handle w =
    (Ok (PyRef (S (length (heap w)))),
     World (heap w ++ reading_dicts asset ts key
                        (Qdiv (inject_Z (b4 * 256 + b5)) (inject_Z 10))
                        (Qdiv (inject_Z (b2 * 256 + b3)) (inject_Z 10))
                        (length (heap w)))
           (next_bus w) (open_buses w)
           (trace w ++ poll_calls b addr)
           (log w) e').
Proof.
  intros Hp (r1 & e1 & e2 & e3 & e4 & H1 & H2 & H3 & H4 & H5) Hb.
  unfold plugin_poll, bind at 1. rewrite Hp.
  cbv beta iota zeta delta
    [try_except poll_body bind bus_write bus_read lift ret].
  rewrite H1.
  destruct r1;
  cbv beta iota zeta delta
    [set_env add_call heap env trace log next_bus open_buses];
  rewrite H2;
  cbv beta iota zeta delta
    [set_env add_call heap env trace log next_bus open_buses];
  rewrite H3, (bytearray_ok _ Hb);
  cbv beta iota zeta delta
    [temperature_of humidity_of received_crc byte_at
     Builtins.truediv utils_local_timestamp str_uuid4 new_dict
     set_heap set_env add_call heap env trace log next_bus open_buses];
  change ([b0; b1; b2; b3; b4; b5; b6; b7] !! 4%nat) with (Some b4);
  change ([b0; b1; b2; b3; b4; b5; b6; b7] !! 5%nat) with (Some b5);
  change ([b0; b1; b2; b3; b4; b5; b6; b7] !! 2%nat) with (Some b2);
  change ([b0; b1; b2; b3; b4; b5; b6; b7] !! 3%nat) with (Some b3);
  change ([b0; b1; b2; b3; b4; b5; b6; b7] !! 6%nat) with (Some b6);
  change ([b0; b1; b2; b3; b4; b5; b6; b7] !! 7%nat) with (Some b7);
  change (10 =? 0) with false;
  cbv beta iota;
  destruct (negb _);
  rewrite H4, H5;
  unfold reading_dicts, poll_calls;
  rewrite length_app, Nat.add_1_r, <- !app_assoc; reflexivity.
Qed.

(** What the body of the [try] can do to the world: it talks to the
    transport, and allocates the two dicts of the Reading when it
    succeeds. *)
Lemma poll_body_frame bus addr asset (w w' : world E) r :
  poll_body bus addr asset w = (r, w') ->
  next_bus w' = next_bus w /\ open_buses w' = open_buses w
  /\ log w' = log w
  /\ (exists calls, trace w' = trace w ++ calls
                    /\ Forall (fun c => call_addr c = addr) calls)
  /\ match r with
     | Ok v => v = PyRef (S (length (heap w)))
               /\ exists d1 d2, heap w' = heap w ++ [d1; d2]
     | Raise _ => heap w' = heap w
     end.
Proof.
  destruct w as [h nb ob tr lg e].
  cbv beta iota zeta delta
    [try_except poll_body bind bus_write bus_read lift ret
     utils_local_timestamp str_uuid4 new_dict].
  intros H.
  repeat (case_match; simplify_eq);
    cbn [set_heap set_env add_call heap env trace log next_bus open_buses]
      in *; simplify_eq;
    (split; [done |]); (split; [done |]); (split; [done |]);
    (split;
     [ rewrite <- ?app_assoc; eexists; split;
       [ try reflexivity; symmetry; apply app_nil_r | repeat constructor ]
     | ]);
    try done.
  all: split; [by rewrite length_app, Nat.add_1_r |].
  all: rewrite <- app_assoc; by do 2 eexists.
Qed.

Lemma poll_prelude_addr handle (w w' : world E) bus addr asset :
  poll_prelude handle w = (Ok (bus, addr, asset), w') ->
  exists n, addr = PyStr (Builtins.hex n).
Proof.
  unfold poll_prelude, bind, getitem, py_int16, py_str, py_replace, ret, raise.
  intros H. repeat case_match; simplify_eq; by eexists.
Qed.

(** The handler of the outer [try]. *)
Lemma plugin_poll_raise handle (w w1 : world E) bus addr asset ex :
  poll_prelude handle w = (Ok (bus, addr, asset), w) ->
  poll_body bus addr asset w = (Raise ex, w1) ->
  plugin_poll handle w
  = (Raise (DataRetrievalError ex),
     add_log (ERROR, "AM2315 exception: " +:+ exn_str ex) w1).
Proof.
  intros Hp Hb. unfold plugin_poll, bind at 1. rewrite Hp.
  unfold try_except. rewrite Hb. reflexivity.
Qed.

Lemma plugin_poll_return handle (w w1 : world E) bus addr asset v :
  poll_prelude handle w = (Ok (bus, addr, asset), w) ->
  poll_body bus addr asset w = (Ok v, w1) ->
  plugin_poll handle w = (Ok v, w1).
Proof.
  intros Hp Hb. unfold plugin_poll, bind at 1. rewrite Hp.
  unfold try_except. by rewrite Hb.
Qed.

Lemma plugin_poll_prelude_raise handle (w : world E) ex :
  poll_prelude handle w = (Raise ex, w) ->
  plugin_poll handle w = (Raise ex, w).
Proof. intros Hp. unfold plugin_poll, bind at 1. by rewrite Hp. Qed.


End Poll.

(** ** Text substitution *)

Section Replace.

Lemma str_replace_token s a :
  Builtins.str_replace s "%M" a = Builtins.replace_go "%M" a 0 s.
Proof. reflexivity. Qed.

Lemma replace_go_absent a s :
  occurs "%M" s = false -> Builtins.replace_go "%M" a 0 s = s.
Proof.
  induction s as [|c s IH]; [done |].
  cbn [occurs Builtins.replace_go]. intros H.
  apply orb_false_iff in H as [Hp Ho].
  rewrite Hp. f_equal. by apply IH.
Qed.

Lemma prefix_token_cons c r rest :
  String.prefix "%M" (String c r) = false ->
  String.prefix "%M" (String c (r +:+ "%M" +:+ rest)) = false.
Proof.
  cbn [String.prefix].
  destruct (ascii_dec "%" c) as [_ | _]; [| done].
  destruct r as [|d r]; [done |].
  change (String d r +:+ "%M" +:+ rest)
    with (String d (r +:+ "%M" +:+ rest)).
  cbn [String.prefix].
  destruct (ascii_dec "M" d); [by destruct r | done].
Qed.

Lemma replace_go_once a pre post :
  occurs "%M" pre = false ->
  Builtins.replace_go "%M" a 0 (pre +:+ "%M" +:+ post)
  = pre +:+ a +:+ Builtins.replace_go "%M" a 0 post.
Proof.
  induction pre as [|c pre IH].
  { intros _.
    change ("" +:+ "%M" +:+ post) with (String "%" (String "M" post)).
    cbn [Builtins.replace_go].
    replace (String.prefix "%M" (String "%" (String "M" post))) with true
      by (by destruct post).
    reflexivity. }
  cbn [occurs]. intros H. apply orb_false_iff in H as [Hp Ho].
  change (String c pre +:+ "%M" +:+ post)
    with (String c (pre +:+ "%M" +:+ post)).
  cbn [Builtins.replace_go].
  rewrite (prefix_token_cons _ _ _ Hp).
  change (String c pre +:+ a +:+ Builtins.replace_go "%M" a 0 post)
    with (String c (pre +:+ a +:+ Builtins.replace_go "%M" a 0 post)).
  f_equal. by apply IH.
Qed.

End Replace.

(** ** Properties of plugin_poll and plugin_shutdown *)

Section PollProperties.

Context {E : Type} `{HostE : Host E}.

Lemma reading_lookup (h : list (gmap string pyval)) asset ts key t hu :
  let h' := h ++ reading_dicts asset ts key t hu (length h) in
  dict_get h' (PyRef (S (length h))) "asset" = Ok (PyStr asset)
  /\ dict_get h' (PyRef (S (length h))) "readings" = Ok (PyRef (length h))
  /\ dict_get h' (PyRef (length h)) "humidity" = Ok (PyFloat hu)
  /\ dict_get h' (PyRef (length h)) "temperature" = Ok (PyFloat t).
Proof.
  intros h'. subst h'. unfold dict_get, reading_dicts.
  rewrite !lookup_app_r by lia.
  rewrite Nat.sub_diag.
  replace (S (length h) - length h)%nat with 1%nat by lia.
  cbn [lookup list_lookup].
  repeat split; reflexivity.
Qed.

Lemma tenths (z : Z) :
  Qeq (Qmult (Qdiv (inject_Z z) (inject_Z 10)) (inject_Z 10)) (inject_Z z).
Proof. rewrite Qmult_comm. apply Qmult_div_r. discriminate. Qed.

(** C1: for every 8-byte response, the Reading returned by plugin_poll
    carries humidity = (byte[2] * 256 + byte[3]) / 10 and
    temperature = (byte[4] * 256 + byte[5]) / 10, whatever the host, the
    store and the other bytes are; ten times each value is an integer. *)
Theorem poll_decodes_reading handle (w : world E) b a t n
    b0 b1 b2 b3 b4 b5 b6 b7 ts key e' :
  session (heap w) handle b a t ->
  Builtins.int_base16 a = Some n ->
  sensor_answers b (PyStr (Builtins.hex n)) (env w)
                 [b0; b1; b2; b3; b4; b5; b6; b7] ts key e' ->
  Forall (fun x => 0 <= x < 256) [b0; b1; b2; b3; b4; b5; b6; b7] ->
  exists reading w' readings humidity temperature,
    plugin_poll handle w = (Ok reading, w')
    /\ dict_get (heap w') reading "readings" = Ok readings
    /\ dict_get (heap w') readings "humidity" = Ok (PyFloat humidity)
    /\ dict_get (heap w') readings "temperature" = Ok (PyFloat temperature)
    /\ humidity = Qdiv (inject_Z (b2 * 256 + b3)) (inject_Z 10)
    /\ temperature = Qdiv (inject_Z (b4 * 256 + b5)) (inject_Z 10)
    /\ Qeq (Qmult humidity (inject_Z 10)) (inject_Z (b2 * 256 + b3))
    /\ Qeq (Qmult temperature (inject_Z 10)) (inject_Z (b4 * 256 + b5)).
Proof.
  intros Hs Hn Ha Hb.
  pose proof (poll_prelude_session _ _ _ _ _ _ Hs Hn) as Hp.
  pose proof (plugin_poll_success _ _ _ _ _ _ _ _ _ _ _ _ _ _ _ _ Hp Ha Hb)
    as Hpoll.
  destruct (reading_lookup (heap w) (Builtins.str_replace t "%M" a) ts key
              (Qdiv (inject_Z (b4 * 256 + b5)) (inject_Z 10))
              (Qdiv (inject_Z (b2 * 256 + b3)) (inject_Z 10)))
    as (_ & Hr & Hh & Ht).
  do 5 eexists. split; [exact Hpoll |].
  cbn [heap].
  split; [exact Hr |]. split; [exact Hh |]. split; [exact Ht |].
  split; [reflexivity |]. split; [reflexivity |].
  split; apply tenths.
Qed.

(** C3: a response whose computed checksum differs from the received one
    is accepted like any other: plugin_poll returns the Reading, nothing is
    logged, and neither the result nor the world depends on the
    comparison. *)
Theorem crc_mismatch_is_ignored handle (w : world E) b a t n
    b0 b1 b2 b3 b4 b5 b6 b7 ts key e' :
  session (heap w) handle b a t ->
  Builtins.int_base16 a = Some n ->
  sensor_answers b (PyStr (Builtins.hex n)) (env w)
                 [b0; b1; b2; b3; b4; b5; b6; b7] ts key e' ->
  Forall (fun x => 0 <= x < 256) [b0; b1; b2; b3; b4; b5; b6; b7] ->
  received_crc [b0; b1; b2; b3; b4; b5; b6; b7] = Ok (b7 * 256 + b6) ->
  calc_crc [b0; b1; b2; b3; b4; b5; b6; b7] <> b7 * 256 + b6 ->
  plugin_poll handle w =
    (Ok (PyRef (S (length (heap w)))),
     World (heap w ++ reading_dicts (Builtins.str_replace t "%M" a) ts key
                        (Qdiv (inject_Z (b4 * 256 + b5)) (inject_Z 10))
                        (Qdiv (inject_Z (b2 * 256 + b3)) (inject_Z 10))
                        (length (heap w)))
           (next_bus w) (open_buses w)
           (trace w ++ poll_calls b (PyStr (Builtins.hex n)))
           (log w) e').
Proof.
  intros Hs Hn Ha Hb _ _.
  pose proof (poll_prelude_session _ _ _ _ _ _ Hs Hn) as Hp.
  exact (plugin_poll_success _ _ _ _ _ _ _ _ _ _ _ _ _ _ _ _ Hp Ha Hb).
Qed.


(** C5 (amended): the asset name of the Reading is the template with every
    occurrence of the token %M replaced by the configured i2cAddress string
    exactly as it is configured; the template am2315/%M/ with 0x5C gives
    am2315/0x5C/; a template with a single %M undergoes exactly one
    substitution, and a text without %M is left as it is. *)
Theorem asset_name_substitution :
  (forall handle (w : world E) b a t n b0 b1 b2 b3 b4 b5 b6 b7 ts key e',
      session (heap w) handle b a t ->
      Builtins.int_base16 a = Some n ->
      sensor_answers b (PyStr (Builtins.hex n)) (env w)
                     [b0; b1; b2; b3; b4; b5; b6; b7] ts key e' ->
      Forall (fun x => 0 <= x < 256) [b0; b1; b2; b3; b4; b5; b6; b7] ->
      exists reading w',
        plugin_poll handle w = (Ok reading, w')
        /\ dict_get (heap w') reading "asset"
           = Ok (PyStr (Builtins.str_replace t "%M" a)))
  /\ Builtins.str_replace "am2315/%M/" "%M" "0x5C" = "am2315/0x5C/"
  /\ (forall pre post a,
        occurs "%M" pre = false -> occurs "%M" post = false ->
        Builtins.str_replace (pre +:+ "%M" +:+ post) "%M" a
        = pre +:+ a +:+ post)
  /\ (forall s a,
        occurs "%M" s = false -> Builtins.str_replace s "%M" a = s).
Proof.
  split; [| split; [reflexivity | split]].
  - intros handle w b a t n b0 b1 b2 b3 b4 b5 b6 b7 ts key e' Hs Hn Ha Hb.
    pose proof (poll_prelude_session _ _ _ _ _ _ Hs Hn) as Hp.
    do 2 eexists. split;
      [exact (plugin_poll_success _ _ _ _ _ _ _ _ _ _ _ _ _ _ _ _ Hp Ha Hb) |].
    cbn [heap]. apply reading_lookup.
  - intros pre post a Hpre Hpost.
    rewrite str_replace_token, replace_go_once by done.
    by rewrite replace_go_absent.
  - intros s a Hs. rewrite str_replace_token. by apply replace_go_absent.
Qed.

(** Whatever the handle, every address that plugin_poll hands to the
    block write and block read operations is the str produced by [hex],
    not a number. *)
Lemma poll_passes_hex_text_as_address handle (w w' : world E) r :
  plugin_poll handle w = (r, w') ->
  exists calls,
    trace w' = trace w ++ calls
    /\ Forall (fun c => exists n, call_addr c = PyStr (Builtins.hex n)) calls.
Proof.
  intros Hpoll.
  destruct (poll_prelude handle w) as [[[[bus addr] asset] | ex] w0] eqn:Hp.
  - pose proof (poll_prelude_pure _ _ _ _ Hp) as ->.
    destruct (poll_prelude_addr _ _ _ _ _ _ Hp) as [n ->].
    destruct (poll_body bus (PyStr (Builtins.hex n)) asset w)
      as [[v | ex] w1] eqn:Hb;
      [ rewrite (plugin_poll_return _ _ _ _ _ _ _ Hp Hb) in Hpoll
      | rewrite (plugin_poll_raise _ _ _ _ _ _ _ Hp Hb) in Hpoll ];
      apply poll_body_frame in Hb as (_ & _ & _ & (calls & Ht & Hc) & _);
      simplify_eq; exists calls; (split; [exact Ht |]);
      rewrite Forall_forall in Hc; apply Forall_forall; intros c Hin;
      exists n; by apply Hc.
  - pose proof (poll_prelude_pure _ _ _ _ Hp) as ->.
    rewrite (plugin_poll_prelude_raise _ _ _ Hp) in Hpoll.
    simplify_eq. exists []. by rewrite app_nil_r.
Qed.

(** C10: plugin_poll leaves every existing object as it was, whether it
    returns or raises: the store only grows by the two dicts of the Reading
    when the poll returns, and is unchanged when it raises; the set of open
    transports does not change. *)
Theorem plugin_poll_preserves_handle handle (w w' : world E) r :
  plugin_poll handle w = (r, w') ->
  (exists fresh,
      heap w' = heap w ++ fresh
      /\ match r with
         | Ok reading =>
             reading = PyRef (S (length (heap w))) /\ length fresh = 2%nat
         | Raise _ => fresh = []
         end)
  /\ (forall l key,
        (l < length (heap w))%nat ->
        dict_get (heap w') (PyRef l) key = dict_get (heap w) (PyRef l) key)
  /\ next_bus w' = next_bus w
  /\ open_buses w' = open_buses w.
Proof.
  intros Hpoll.
  assert (Hmain :
    (exists fresh,
        heap w' = heap w ++ fresh
        /\ match r with
           | Ok reading =>
               reading = PyRef (S (length (heap w))) /\ length fresh = 2%nat
           | Raise _ => fresh = []
           end)
    /\ next_bus w' = next_bus w /\ open_buses w' = open_buses w).
  { destruct (poll_prelude handle w) as [[[[bus addr] asset] | ex] w0] eqn:Hp;
      pose proof (poll_prelude_pure _ _ _ _ Hp) as ->.
    - destruct (poll_body bus addr asset w) as [[v | ex] w1] eqn:Hb;
        [ rewrite (plugin_poll_return _ _ _ _ _ _ _ Hp Hb) in Hpoll
        | rewrite (plugin_poll_raise _ _ _ _ _ _ _ Hp Hb) in Hpoll ];
        apply poll_body_frame in Hb as (Hnb & Hob & _ & _ & Hh);
        simplify_eq.
      + destruct Hh as (-> & d1 & d2 & Hh).
        split; [| done]. exists [d1; d2]. by rewrite Hh.
      + split; [| done]. exists []. cbn [add_log heap].
        by rewrite Hh, app_nil_r.
    - rewrite (plugin_poll_prelude_raise _ _ _ Hp) in Hpoll. simplify_eq.
      split; [| done]. exists []. by rewrite app_nil_r. }
  destruct Hmain as ((fresh & Hh & Hr) & Hnb & Hob).
  split; [by exists fresh |]. split; [| done].
  intros l key Hl. unfold dict_get. by rewrite Hh, lookup_app_l.
Qed.

(** C9 (amended): plugin_shutdown only writes a log record: it returns
    None, leaves the store, and with it every field of the handle,
    unchanged, and does not release the transport, which stays open. *)
Theorem plugin_shutdown_only_logs handle (w : world E) :
  fst (plugin_shutdown handle w) = Ok PyNone
  /\ heap (snd (plugin_shutdown handle w)) = heap w
  /\ open_buses (snd (plugin_shutdown handle w)) = open_buses w
  /\ next_bus (snd (plugin_shutdown handle w)) = next_bus w
  /\ trace (snd (plugin_shutdown handle w)) = trace w
  /\ env (snd (plugin_shutdown handle w)) = env w
  /\ log (snd (plugin_shutdown handle w))
     = log w ++ [(INFO, "AM2315 poll plugin shut down.")].
Proof. repeat split. Qed.

End PollProperties.

(** ** copy.deepcopy, plugin_init and plugin_reconfigure *)

Section DeepcopySpec.

Variable copy_bus : nat -> result nat.
Variable h0 : list (gmap string pyval).

Lemma copied_mono memo memo' v v' :
  memo ⊆ memo' -> copied copy_bus memo v v' -> copied copy_bus memo' v v'.
Proof.
  intros Hsub. destruct v; simpl; try done.
  intros (l' & -> & Hl). exists l'. split; [done |].
  by eapply lookup_weaken.
Qed.

Lemma entry_ok_mono memo memo' h h' l l' :
  memo ⊆ memo' -> h' !! l' = h !! l' ->
  entry_ok copy_bus h0 memo h l l' -> entry_ok copy_bus h0 memo' h' l l'.
Proof.
  intros Hsub Hh (d & d' & Hd & Hd' & Hf).
  exists d, d'. split; [done |]. split; [congruence |].
  intros k v' Hk. destruct (Hf k v' Hk) as (v & Hv & Hc).
  exists v. split; [done |]. by eapply copied_mono.
Qed.

Lemma complete_mono h h' l l' :
  h' !! l' = h !! l' -> complete h0 h l l' -> complete h0 h' l l'.
Proof.
  intros Hh (d & d' & Hd & Hd' & Hdom). exists d, d'.
  split; [done |]. split; [congruence | done].
Qed.

Lemma copy_post_refl memo h x x' :
  copy_inv copy_bus h0 memo h -> copied copy_bus memo x x' ->
  copy_post copy_bus h0 memo h x x' memo h.
Proof.
  intros Hinv Hc. split; [done |]. split; [done |].
  split; [exists []; by rewrite app_nil_r |]. split; [done |].
  split; [intros l l' H1 H2; congruence |].
  intros l -> Hl. destruct Hc as (l' & _ & Hl'). congruence.
Qed.

Lemma loop_start memo h l d :
  copy_inv copy_bus h0 memo h -> h0 !! l = Some d -> memo !! l = None ->
  loop_inv copy_bus h0 memo h l d (Ok (<[l := length h]> memo, h ++ [∅])) ∅.
Proof.
  intros [[ext ->] Hrange Hinj Hentry] Hd Hl _.
  assert (Hsub : memo ⊆ <[l := length (h0 ++ ext)]> memo)
    by by apply insert_subseteq.
  eexists _, _. split; [done |]. split; [| split; [done |]; split; [by eexists |]; split].
  - split.
    + exists (ext ++ [∅]). by rewrite app_assoc.
    + intros l1 l1' H. pose proof (length_app h0 ext) as Hlen.
      rewrite (length_app (h0 ++ ext)). simpl.
      apply lookup_insert_Some in H as [[_ <-] | [_ H]]; [lia |].
      apply Hrange in H. lia.
    + intros l1 l2 l'.
      intros [[<- <-] | [? H1]]%lookup_insert_Some
             [[<- E] | [? H2]]%lookup_insert_Some; try done.
      * apply Hrange in H2. lia.
      * apply Hrange in H1. lia.
      * intros. by eapply Hinj.
    + intros l1 l1'. intros [[<- <-] | [? H1]]%lookup_insert_Some.
      * exists d, ∅. split; [done |]. split.
        { by rewrite lookup_app_r, Nat.sub_diag by lia. }
        intros k v'. by rewrite lookup_empty.
      * eapply entry_ok_mono; [exact Hsub | | by apply Hentry].
        apply Hrange in H1. by rewrite lookup_app_l by lia.
  - exists ∅. split; [| done].
    by rewrite lookup_app_r, Nat.sub_diag by lia.
  - intros l1 l1' H1 H2. congruence.
Qed.

(** One iteration of the loop: the item [i], whose value is copied by the
    recursive call, is stored in the dict at [length h]. *)
Lemma loop_step memo h l d (m : gmap string pyval) i v memo_i h_i
    v' memo2 h2 :
  h0 !! l = Some d -> memo !! l = None ->
  m !! i = None -> <[i := v]> m ⊆ d ->
  loop_inv copy_bus h0 memo h l d (Ok (memo_i, h_i)) m ->
  copy_post copy_bus h0 memo_i h_i v v' memo2 h2 ->
  loop_inv copy_bus h0 memo h l d
    (Ok (memo2, alter (insert i v') (length h) h2)) (<[i := v]> m).
Proof.
  intros Hd Hl Hmi Hsub HP Hpost _.
  assert (Hm : m ⊆ d).
  { etrans; [| exact Hsub]. by apply insert_subseteq. }
  assert (Hdi : d !! i = Some v).
  { eapply lookup_weaken; [apply lookup_insert_eq | exact Hsub]. }
  destruct (HP Hm)
    as (? & ? & [= <- <-] & Hinv_i & Hsub1 & [ext_i ->]
        & (dy & Hdy & Hdom) & Hnew).
  destruct Hpost as (Hinv2 & Hsub2 & [ext2 ->] & Hcop & Hnew2 & _).
  set (y := length h) in *.
  assert (Hy : (y < length (h ++ ext_i))%nat) by by eapply lookup_lt_Some.
  assert (Hly : memo2 !! l = Some y).
  { eapply lookup_weaken; [| exact Hsub2].
    eapply lookup_weaken; [| exact Hsub1]. apply lookup_insert_eq. }
  assert (Hdy2 : ((h ++ ext_i) ++ ext2) !! y = Some dy)
    by by apply lookup_app_l_Some.
  assert (Hother : forall j, j <> y ->
            alter (insert i v') y ((h ++ ext_i) ++ ext2) !! j
            = ((h ++ ext_i) ++ ext2) !! j).
  { intros j Hj. by apply list_lookup_alter_ne. }
  assert (Hself : alter (insert i v') y ((h ++ ext_i) ++ ext2) !! y
                  = Some (<[i := v']> dy)).
  { by rewrite list_lookup_alter_eq, Hdy2. }
  destruct Hinv2 as [[e He] Hrange Hinj Hentry].
  eexists _, _. split; [reflexivity |].
  split; [| split; [by etrans |]; split; [| split]].
  - split.
    + pose proof (Hrange _ _ Hly) as Hry. rewrite He.
      rewrite alter_app_r_alt by lia. by eexists.
    + intros l1 l1' H1. rewrite length_alter. by eapply Hrange.
    + exact Hinj.
    + intros l1 l1' H1. destruct (decide (l1' = y)) as [-> | Hne].
      * assert (l1 = l) as -> by by eapply Hinj.
        destruct (Hentry _ _ Hly) as (d1 & d1' & Hd1 & Hd1' & Hf).
        assert (d1 = d) as -> by congruence.
        assert (d1' = dy) as -> by congruence.
        exists d, (<[i := v']> dy). split; [done |]. split; [done |].
        intros k w. intros [[<- <-] | [_ Hk]]%lookup_insert_Some.
        -- by exists v.
        -- by apply Hf.
      * eapply (entry_ok_mono memo2 memo2); [done | | by apply Hentry].
        by apply Hother.
  - rewrite <- app_assoc.
    rewrite alter_app_r_alt by (unfold y; lia). by eexists.
  - exists (<[i := v']> dy). split; [done |].
    by rewrite !dom_insert_L, Hdom.
  - intros l1 l1' H1 H1n.
    assert (Hfresh : (S y <= l1')%nat /\ complete h0 ((h ++ ext_i) ++ ext2) l1 l1').
    { destruct (memo_i !! l1) as [l1'' |] eqn:Hi.
      - assert (l1'' = l1') as ->.
        { pose proof (lookup_weaken _ _ _ _ Hi Hsub2). congruence. }
        destruct (Hnew _ _ Hi H1n) as [Hge Hc]. split; [done |].
        eapply complete_mono; [| exact Hc].
        destruct Hc as (? & ? & _ & Hc & _).
        apply lookup_lt_Some in Hc. by rewrite lookup_app_l.
      - destruct (Hnew2 _ _ H1 Hi) as [Hge Hc]. split; [lia | done]. }
    destruct Hfresh as [Hge Hc]. split; [done |].
    eapply complete_mono; [| exact Hc]. apply Hother. lia.
Qed.

Lemma deepcopy_rec_json fuel :
  forall n x memo h,
    (n <= fuel)%nat -> json_value h0 n x -> copy_inv copy_bus h0 memo h ->
    exists x' memo' h',
      deepcopy_rec copy_bus fuel x memo h = Ok (x', memo', h')
      /\ copy_post copy_bus h0 memo h x x' memo' h'.
Proof.
  induction fuel as [|fuel IH]; intros n x memo h Hn Hj Hinv.
  - inversion Hj; subst; try lia;
      eexists _, _, _; (split; [reflexivity |]); by apply copy_post_refl.
  - inversion Hj as [| | | | n' l d Hd Hkids]; subst;
      try (eexists _, _, _; (split; [reflexivity |]); by apply copy_post_refl).
    cbn [deepcopy_rec].
    destruct (memo !! l) as [l' |] eqn:Hl.
    { eexists _, _, _. split; [reflexivity |]. apply copy_post_refl; [done |].
      by exists l'. }
    assert (Hhl : h !! l = Some d).
    { destruct (inv_prefix _ _ _ _ Hinv) as [ext ->].
      by apply lookup_app_l_Some. }
    rewrite Hhl.
    match goal with
    | |- context [map_fold ?f ?b d] =>
        assert (Hloop : loop_inv copy_bus h0 memo h l d (map_fold f b d) d)
    end.
    { apply (map_fold_weak_ind (loop_inv copy_bus h0 memo h l d)).
      - by apply loop_start.
      - intros i v m r Hmi HP Hsub.
        assert (Hm : m ⊆ d).
        { etrans; [| exact Hsub]. by apply insert_subseteq. }
        assert (Hdi : d !! i = Some v).
        { eapply lookup_weaken; [apply lookup_insert_eq | exact Hsub]. }
        destruct (HP Hm) as (memo_i & h_i & -> & Hinv_i & _).
        destruct (IH n' v memo_i h_i) as (v' & memo2 & h2 & Hrec & Hpost);
          [lia | by eapply Hkids | done |].
        rewrite Hrec.
        by eapply loop_step. }
    destruct (Hloop (reflexivity d))
      as (memo' & h' & -> & Hinv' & Hsub' & Hext & (dy & Hdy & Hdom) & Hnew).
    eexists _, _, _. split; [reflexivity |].
    assert (Hly : memo' !! l = Some (length h)).
    { eapply lookup_weaken; [apply lookup_insert_eq | exact Hsub']. }
    split; [done |].
    split; [etrans; [by apply insert_subseteq | exact Hsub'] |].
    split; [done |]. split; [by eexists |].
    split; [| done].
    intros l1 l1' H1 H1n. destruct (decide (l1 = l)) as [-> | Hne].
    + assert (l1' = length h) as -> by congruence.
      split; [done |]. by exists d, dy.
    + destruct (Hnew l1 l1' H1) as [Hge Hc]; [by rewrite lookup_insert_ne |].
      split; [lia | done].
Qed.

Lemma json_value_mono h n m v :
  json_value h n v -> (n <= m)%nat -> json_value h m v.
Proof.
  intros Hj. revert m. induction Hj as [| | | | n l d Hd Hk IH]; intros m Hm;
    try by constructor.
  destruct m as [|m]; [lia |]. econstructor; [done |].
  intros k v Hv. apply (IH k v Hv). lia.
Qed.

Lemma json_value_child h n v u :
  json_value h n v -> child h v u -> json_value h n u.
Proof.
  intros Hj (a & d & k & -> & Hd & Hk).
  inversion Hj as [| | | | n' l d' Hd' Hkids]; subst.
  assert (d' = d) as -> by congruence.
  eapply json_value_mono; [by eapply Hkids | lia].
Qed.

Lemma json_value_reach h n v u :
  json_value h n v -> rtc (child h) v u -> json_value h n u.
Proof.
  intros Hj Hr. induction Hr as [| v c u Hc _ IH]; [done |].
  apply IH. by eapply json_value_child.
Qed.

(** A JSON document has no cycle. *)
Lemma json_value_acyclic h n l c :
  json_value h n (PyRef l) -> child h (PyRef l) c ->
  rtc (child h) c (PyRef l) -> False.
Proof.
  revert c. induction n as [|n IH]; intros c Hj Hc Hr; [inversion Hj |].
  apply (IH c); [| done | done].
  pose proof Hc as (a & d & k & [= <-] & Hd & Hk).
  inversion Hj as [| | | | n' l' d' Hd' Hkids]; subst.
  assert (d' = d) as -> by congruence.
  eapply json_value_reach; [by eapply Hkids | done].
Qed.

Lemma copy_same memo h'' avoid :
  (forall l1 l1', memo !! l1 = Some l1' -> l1 <> avoid ->
                  entry_full copy_bus h0 memo h'' l1 l1') ->
  forall n v v',
    json_value h0 n v -> ~ rtc (child h0) v (PyRef avoid) ->
    copied copy_bus memo v v' -> same_value h0 h'' v v'.
Proof.
  intros Hfull n. induction n as [|n IH]; intros v v' Hj Hno Hc;
    inversion Hj as [| | | | n' l d Hd Hkids]; subst; simpl in Hc; subst;
      try (by constructor); try (constructor; apply Qeq_refl).
  destruct Hc as (l' & -> & Hl).
  assert (Hne : l <> avoid) by (intros ->; by apply Hno).
  destruct (Hfull _ _ Hl Hne) as (d1 & d' & Hd1 & Hd' & Hdom & Hf).
  assert (d1 = d) as -> by congruence.
  apply (same_dict _ _ _ _ d d'); [done | done | done |].
  intros k v1 v2 Hv1 Hv2. apply IH; [by eapply Hkids | | by eapply Hf].
  intros Hr. apply Hno. eapply rtc_l; [| exact Hr].
  by exists l, d, k.
Qed.

(** The deep copy of a JSON document, from an empty memo. *)
Lemma deepcopy_json fuel n l d :
  h0 !! l = Some d -> json_value h0 (S n) (PyRef l) -> (S n <= fuel)%nat ->
  exists memo' h' d',
    deepcopy_rec copy_bus fuel (PyRef l) ∅ h0
    = Ok (PyRef (length h0), memo', h')
    /\ (exists ext, h' = h0 ++ ext)
    /\ h' !! length h0 = Some d'
    /\ dom d' = dom d
    /\ forall h'',
         (forall j, (length h0 < j)%nat -> h'' !! j = h' !! j) ->
         forall k v v',
           d !! k = Some v -> d' !! k = Some v' -> same_value h0 h'' v v'.
Proof.
  intros Hd Hj Hn.
  assert (Hinv0 : copy_inv copy_bus h0 ∅ h0).
  { split; [exists []; by rewrite app_nil_r | | |];
      intros ? ?; by rewrite ?lookup_empty. }
  destruct (deepcopy_rec_json fuel (S n) (PyRef l) ∅ h0 Hn Hj Hinv0)
    as (x' & memo' & h' & Hrec & Hinv & _ & Hext & Hc & Hnew & Htop).
  rewrite (Htop l eq_refl (lookup_empty _)) in *.
  destruct Hc as (y & [= <-] & Hly).
  destruct (Hnew _ _ Hly (lookup_empty _)) as [_ (d0 & d' & Hd0 & Hd' & Hdom)].
  assert (d0 = d) as -> by congruence.
  exists memo', h', d'. split; [done |]. split; [done |].
  split; [done |]. split; [done |].
  intros h'' Hagree k v v' Hv Hv'.
  inversion Hj as [| | | | n' l' d1 Hd1 Hkids]; subst.
  assert (d1 = d) as -> by congruence.
  apply (copy_same memo' h'' l) with (n := n).
  - intros l1 l1' Hl1 Hne.
    destruct (Hnew _ _ Hl1 (lookup_empty _)) as [Hge (e & e' & He & He' & Hedom)].
    destruct (inv_entry _ _ _ _ Hinv _ _ Hl1) as (e1 & e1' & He1 & He1' & Hf).
    assert (e1 = e) as -> by congruence.
    assert (e1' = e') as -> by congruence.
    assert (l1' <> length h0).
    { intros ->. apply Hne. by eapply (inv_inj _ _ _ _ Hinv). }
    exists e, e'. split; [done |].
    split; [rewrite Hagree by lia; done |]. split; [done |].
    intros k0 u u' Hu Hu'. destruct (Hf _ _ Hu') as (u0 & Hu0 & Hcu).
    congruence.
  - by eapply Hkids.
  - intros Hr. eapply json_value_acyclic; [exact Hj | | exact Hr].
    by exists l, d, k.
  - destruct (inv_entry _ _ _ _ Hinv _ _ Hly) as (e1 & e1' & He1 & He1' & Hf).
    assert (e1' = d') as -> by congruence.
    destruct (Hf _ _ Hv') as (u0 & Hu0 & Hcu). congruence.
Qed.

End DeepcopySpec.


Section Lifecycle.

Context {E : Type} `{HostE : Host E}.

(** [copy.deepcopy] of a JSON document, followed by the assignment of one
    more item to the copy. *)
Lemma deepcopy_and_tag (w : world E) l d n key val :
  heap w !! l = Some d ->
  json_value (heap w) (S n) (PyRef l) ->
  (S n <= recursion_limit)%nat ->
  exists h' d',
    deepcopy (PyRef l) w = (Ok (PyRef (length (heap w))), set_heap h' w)
    /\ (exists ext, h' = heap w ++ ext)
    /\ h' !! length (heap w) = Some d'
    /\ dom d' = dom d
    /\ forall h'',
         (forall j, (length (heap w) <= j)%nat ->
                    h'' !! j = <[length (heap w) := <[key := val]> d']> h' !! j) ->
         dict_get h'' (PyRef (length (heap w))) key = Ok val
         /\ (forall k v, k <> key -> d !! k = Some v ->
               exists v', dict_get h'' (PyRef (length (heap w))) k = Ok v'
                          /\ same_value (heap w) h'' v v')
         /\ (forall k, k <> key -> d !! k = None ->
               dict_get h'' (PyRef (length (heap w))) k = Raise (KeyError k)).
Proof.
  intros Hd Hj Hn.
  destruct (deepcopy_json deepcopy_SMBus (heap w) recursion_limit n l d Hd Hj Hn)
    as (memo' & h' & d' & Hrec & Hext & Hd' & Hdom & Hsame).
  exists h', d'. unfold deepcopy. rewrite Hrec.
  split; [done |]. split; [done |]. split; [done |]. split; [done |].
  intros h'' Hagree.
  assert (Hy : h'' !! length (heap w) = Some (<[key := val]> d')).
  { rewrite Hagree by lia. apply list_lookup_insert_eq.
    by eapply lookup_lt_Some. }
  unfold dict_get. rewrite Hy.
  split; [by rewrite lookup_insert_eq |]. split.
  - intros k v Hk Hv. rewrite lookup_insert_ne by done.
    assert (is_Some (d' !! k)) as [v' Hv'].
    { apply elem_of_dom. rewrite Hdom. apply elem_of_dom. by eexists. }
    rewrite Hv'. exists v'. split; [done |].
    apply (Hsame h'') with (k := k); [| done | done].
    intros j Hlt. rewrite Hagree by lia. apply list_lookup_insert_ne. lia.
  - intros k Hk Hv. rewrite lookup_insert_ne by done.
    assert (d' !! k = None) as ->; [| done].
    apply not_elem_of_dom. rewrite Hdom. by apply not_elem_of_dom.
Qed.

(** C8: plugin_init returns a fresh dict that holds a deep copy of the
    configuration and the newly opened bus under "bus": every other field
    equals the field of the input, the objects of the caller are untouched,
    and whatever the caller does to them afterwards, the fields of the
    handle still equal the values the configuration had. *)
Theorem plugin_init_copies_config (w : world E) l d n e' :
  heap w !! l = Some d ->
  json_value (heap w) (S n) (PyRef l) ->
  (S n <= recursion_limit)%nat ->
  SMBus_new 1 (env w) = (None, e') ->
  exists w',
    plugin_init (PyRef l) w = (Ok (PyRef (length (heap w))), w')
    /\ (exists ext, heap w' = heap w ++ ext)
    /\ open_buses w' = {[next_bus w]} ∪ open_buses w
    /\ forall h'',
         (forall j, (length (heap w) <= j)%nat -> h'' !! j = heap w' !! j) ->
         dict_get h'' (PyRef (length (heap w))) "bus" = Ok (PyBus (next_bus w))
         /\ (forall k v, k <> "bus" -> d !! k = Some v ->
               exists v', dict_get h'' (PyRef (length (heap w))) k = Ok v'
                          /\ same_value (heap w) h'' v v')
         /\ (forall k, k <> "bus" -> d !! k = None ->
               dict_get h'' (PyRef (length (heap w))) k = Raise (KeyError k)).
Proof.
  intros Hd Hj Hn Hopen.
  destruct (deepcopy_and_tag w l d n "bus" (PyBus (next_bus w)) Hd Hj Hn)
    as (h' & d' & Hcopy & [ext ->] & Hd' & Hdom & Hprop).
  eexists. unfold plugin_init, bind at 1. rewrite Hcopy.
  unfold bind at 1, SMBus. cbn [env set_heap]. rewrite Hopen.
  unfold bind, setitem, logger_info, ret, add_log, set_heap.
  cbn [heap next_bus open_buses trace log env]. rewrite Hd'.
  split; [reflexivity |]. cbn [heap open_buses].
  split.
  { rewrite insert_app_r_alt by lia. by eexists. }
  split; [done |]. exact Hprop.
Qed.

(** A JSON document of depth [n] is shown by repr within [n + 1] nested
    calls. *)
Lemma json_value_repr_fits (h : list (gmap string pyval)) n v :
  json_value h n v ->
  forall fuel active, (n < fuel)%nat -> repr_fits h fuel active v = true.
Proof.
  induction 1 as [n | n z | n q | n s | n l d Hl Hitems IH];
    intros fuel active Hlt;
    (destruct fuel as [| fuel]; [lia |]); try reflexivity.
  cbn [repr_fits]. case_bool_decide; [reflexivity |]. rewrite Hl.
  apply forallb_forall. intros [k v] Hin.
  apply list_elem_of_In, elem_of_map_to_list in Hin.
  apply (IH k v Hin). lia.
Qed.

Lemma py_str_pure x (w w' : world E) r : py_str x w = (r, w') -> w' = w.
Proof.
  unfold py_str. destruct x; try (by intros [= _ <-]);
    by destruct (repr_fits _ _ _ _); intros [= _ <-].
Qed.

(** The text of a JSON document can be built when the limit of repr is
    above its depth. *)
Lemma py_str_json (w : world E) n v :
  json_value (heap w) n v ->
  (S n <= str_recursion_limit)%nat ->
  exists text, py_str v w = (Ok text, w).
Proof.
  intros Hj Hn. unfold py_str.
  rewrite (json_value_repr_fits _ _ _ Hj) by lia.
  destruct v; by eexists.
Qed.

(** When both texts of line 177 can be built, the record is logged and the
    copy is made. *)
Lemma plugin_reconfigure_logs handle new_config (w : world E) old new :
  py_str handle w = (Ok old, w) ->
  py_str new_config w = (Ok new, w) ->
  exists record,
    plugin_reconfigure handle new_config w
    = bind (deepcopy new_config) (fun new_handle =>
        bind (setitem new_handle "restart" (PyStr "no")) (fun _ =>
          ret new_handle)) (add_log (INFO, record) w).
Proof.
  intros Hold Hnew. eexists.
  unfold plugin_reconfigure, bind at 1. rewrite Hold.
  unfold bind at 1. rewrite Hnew.
  unfold bind at 1, logger_info at 1. reflexivity.
Qed.

(** str(x) returns a text or raises RecursionError. *)
Lemma py_str_cases x (w : world E) :
  (exists text, py_str x w = (Ok text, w))
  \/ (exists msg, py_str x w = (Raise (RecursionError msg), w)).
Proof.
  unfold py_str.
  destruct x; try (left; by eexists);
    destruct (repr_fits _ _ _ _); (left + right); by eexists.
Qed.

(** Line 177 raises RecursionError, or logs one record. *)
Lemma plugin_reconfigure_start handle new_config (w : world E) :
  (exists msg, plugin_reconfigure handle new_config w
               = (Raise (RecursionError msg), w))
  \/ exists record,
       plugin_reconfigure handle new_config w
       = bind (deepcopy new_config) (fun new_handle =>
           bind (setitem new_handle "restart" (PyStr "no")) (fun _ =>
             ret new_handle)) (add_log (INFO, record) w).
Proof.
  destruct (py_str_cases handle w) as [[old Hold] | [msg Hold]].
  - destruct (py_str_cases new_config w) as [[new Hnew] | [msg Hnew]].
    + right. by eapply plugin_reconfigure_logs.
    + left. exists msg. unfold plugin_reconfigure, bind at 1. rewrite Hold.
      unfold bind at 1. by rewrite Hnew.
  - left. exists msg. unfold plugin_reconfigure, bind at 1. by rewrite Hold.
Qed.

(** C7: plugin_reconfigure returns a fresh dict that holds a deep copy of
    new_config and "restart" = "no": a key that new_config does not have
    (other than "restart") is absent from the new handle whatever the old
    handle holds, the other fields equal those of new_config and share no
    object with it (they still equal the values new_config had whatever
    becomes of the objects that existed before the call), and no transport
    is opened.  The old handle is any object whose text line 177 can
    build. *)
Theorem plugin_reconfigure_replaces_handle (w : world E) handle old l d n :
  heap w !! l = Some d ->
  json_value (heap w) (S n) (PyRef l) ->
  (S n <= recursion_limit)%nat ->
  (S (S n) <= str_recursion_limit)%nat ->
  py_str handle w = (Ok old, w) ->
  exists w',
    plugin_reconfigure handle (PyRef l) w
    = (Ok (PyRef (length (heap w))), w')
    /\ (exists ext, heap w' = heap w ++ ext)
    /\ open_buses w' = open_buses w /\ next_bus w' = next_bus w
    /\ forall h'',
         (forall j, (length (heap w) <= j)%nat -> h'' !! j = heap w' !! j) ->
         dict_get h'' (PyRef (length (heap w))) "restart" = Ok (PyStr "no")
         /\ (forall k v, k <> "restart" -> d !! k = Some v ->
               exists v', dict_get h'' (PyRef (length (heap w))) k = Ok v'
                          /\ same_value (heap w) h'' v v')
         /\ (forall k, k <> "restart" -> d !! k = None ->
               dict_get h'' (PyRef (length (heap w))) k = Raise (KeyError k)).
Proof.
  intros Hd Hj Hn Hs Hold.
  destruct (py_str_json w (S n) (PyRef l) Hj Hs) as [new Hnew].
  destruct (plugin_reconfigure_logs handle (PyRef l) w old new Hold Hnew)
    as [record ->].
  set (w1 := add_log _ w).
  assert (Hw1 : heap w1 = heap w) by done.
  destruct (deepcopy_and_tag w1 l d n "restart" (PyStr "no"))
    as (h' & d' & Hcopy & [ext Hext] & Hd' & Hdom & Hprop);
    [by rewrite Hw1 | by rewrite Hw1 | done |].
  rewrite Hw1 in *. subst h'.
  eexists. unfold bind at 1. rewrite Hcopy.
  unfold bind, setitem, ret, set_heap.
  cbn [heap next_bus open_buses trace log env]. rewrite Hd'.
  split; [reflexivity |]. cbn [heap open_buses next_bus].
  split.
  { rewrite insert_app_r_alt by lia. by eexists. }
  split; [done |]. split; [done |].
  exact Hprop.
Qed.

End Lifecycle.

(** ** The plugin on the scripted host *)

Lemma calc_crc_is_crc16_modbus_witness :
  received_crc Sim.good_response = Ok (130 * 256 + 81)
  /\ calc_crc (<[2%nat := Z.lxor 1 (2 ^ 3)]> Sim.good_response)
     <> calc_crc Sim.good_response.
Proof.
  destruct (calc_crc_is_crc16_modbus Sim.good_response) as (_ & _ & Hr & Hf).
  split.
  - apply (Hr 3 4 1 2 1 8 81 130). reflexivity.
  - apply (Hf 2%nat 1 3); [lia | reflexivity | lia].
Defined.

Lemma poll_decodes_reading_witness :
  exists reading w' readings,
    plugin_poll (PyRef 4%nat) (Sim.session_world Sim.good_response)
    = (Ok reading, w')
    /\ dict_get (heap w') reading "readings" = Ok readings
    /\ dict_get (heap w') readings "humidity"
       = Ok (PyFloat (Qdiv (inject_Z (1 * 256 + 2)) (inject_Z 10)))
    /\ dict_get (heap w') readings "temperature"
       = Ok (PyFloat (Qdiv (inject_Z (1 * 256 + 8)) (inject_Z 10))).
Proof.
  destruct (poll_decodes_reading (PyRef 4%nat)
              (Sim.session_world Sim.good_response)
              0 "0x5C" "am2315/%M/" 92 3 4 1 2 1 8 81 130
              "2018-06-01 12:00:00.000000+00:00"
              "00000000-0000-4000-8000-000000000001" (Sim.Sim None [] [] 2))
    as (reading & w' & readings & hu & te & Hp & Hr & Hh & Ht & -> & -> & _).
  - session_by_eval.
  - vm_compute; reflexivity.
  - answers_by_eval Sim.good_response.
  - repeat constructor; lia.
  - exists reading, w', readings. exact (conj Hp (conj Hr (conj Hh Ht))).
Defined.

Lemma crc_mismatch_is_ignored_witness :
  calc_crc Sim.noisy_response <> 0 * 256 + 0
  /\ fst (plugin_poll (PyRef 4%nat) (Sim.session_world Sim.noisy_response))
     = Ok (PyRef 9%nat)
  /\ log (snd (plugin_poll (PyRef 4%nat)
                  (Sim.session_world Sim.noisy_response)))
     = log (Sim.session_world Sim.noisy_response).
Proof.
  split; [vm_compute; discriminate |].
  rewrite (crc_mismatch_is_ignored (PyRef 4%nat)
             (Sim.session_world Sim.noisy_response)
             0 "0x5C" "am2315/%M/" 92 3 4 1 2 1 8 0 0
             "2018-06-01 12:00:00.000000+00:00"
             "00000000-0000-4000-8000-000000000001" (Sim.Sim None [] [] 2)).
  - split; vm_compute; reflexivity.
  - session_by_eval.
  - vm_compute; reflexivity.
  - answers_by_eval Sim.noisy_response.
  - repeat constructor; lia.
  - vm_compute; reflexivity.
  - vm_compute. discriminate.
Defined.



(** C5, as stated, fails on the default configuration: the asset name is
    am2315/0x5C/, with the address as it is configured, not am2315/0x5c/;
    and a template with two tokens undergoes two substitutions. *)
Lemma asset_name_keeps_configured_text :
  fst (plugin_poll (PyRef 4%nat) (Sim.session_world Sim.good_response))
  = Ok (PyRef 9%nat)
  /\ dict_get (heap (snd (plugin_poll (PyRef 4%nat)
                             (Sim.session_world Sim.good_response))))
              (PyRef 9%nat) "asset"
     = Ok (PyStr "am2315/0x5C/")
  /\ dict_get (heap (snd (plugin_poll (PyRef 4%nat)
                             (Sim.session_world Sim.good_response))))
              (PyRef 9%nat) "asset"
     <> Ok (PyStr "am2315/0x5c/")
  /\ Builtins.str_replace "%M/%M" "%M" "0x5C" = "0x5C/0x5C".
Proof.
  assert (H : dict_get (heap (snd (plugin_poll (PyRef 4%nat)
                                     (Sim.session_world Sim.good_response))))
                (PyRef 9%nat) "asset"
              = Ok (PyStr "am2315/0x5C/")) by (vm_compute; reflexivity).
  split; [vm_compute; reflexivity |]. split; [exact H |].
  split; [rewrite H; discriminate | reflexivity].
Qed.

Lemma asset_name_substitution_witness :
  exists reading w',
    plugin_poll (PyRef 4%nat) (Sim.session_world Sim.good_response)
    = (Ok reading, w')
    /\ dict_get (heap w') reading "asset"
       = Ok (PyStr (Builtins.str_replace "am2315/%M/" "%M" "0x5C")).
Proof.
  destruct (asset_name_substitution (E := Sim.sim)) as (H & _).
  apply (H (PyRef 4%nat) (Sim.session_world Sim.good_response)
           0%nat "0x5C" "am2315/%M/" 92 3 4 1 2 1 8 81 130
           "2018-06-01 12:00:00.000000+00:00"
           "00000000-0000-4000-8000-000000000001" (Sim.Sim None [] [] 2)).
  - session_by_eval.
  - vm_compute; reflexivity.
  - answers_by_eval Sim.good_response.
  - repeat constructor; lia.
Defined.

(** C6: on the default configuration (i2cAddress 0x5C) plugin_poll hands the
    str 0x5c, the text that [hex] makes of the number 92, to both block
    writes and to the block read; the address is not the number. *)
Theorem poll_hands_over_hex_text :
  trace (snd (plugin_poll (PyRef 4%nat) (Sim.session_world Sim.good_response)))
  = poll_calls 0 (PyStr "0x5c")
  /\ Forall (fun c => call_addr c = PyStr (Builtins.hex 92)
                      /\ call_addr c <> PyInt 92)
            (trace (snd (plugin_poll (PyRef 4%nat)
                           (Sim.session_world Sim.good_response)))).
Proof.
  assert (H : trace (snd (plugin_poll (PyRef 4%nat)
                            (Sim.session_world Sim.good_response)))
              = poll_calls 0 (PyStr "0x5c")) by (vm_compute; reflexivity).
  split; [exact H |]. rewrite H.
  repeat constructor; discriminate.
Qed.

Lemma category_json (h : list (gmap string pyval)) a b c :
  h !! 0%nat = Some Sim.category ->
  h !! 1%nat = Some (Sim.item a) ->
  h !! 2%nat = Some (Sim.item b) ->
  h !! 3%nat = Some (Sim.item c) ->
  json_value h 2 (PyRef 0%nat).
Proof.
  intros H0 H1 H2 H3.
  assert (Hitem : forall i s, h !! i = Some (Sim.item s) ->
                              json_value h 1 (PyRef i)).
  { intros i s Hi. apply (json_dict h 0 i (Sim.item s)); [done |].
    intros k v Hk. unfold Sim.item in Hk.
    apply lookup_insert_Some in Hk as [[_ <-] | [_ Hk]]; [constructor |].
    apply lookup_insert_Some in Hk as [[_ <-] | [_ Hk]]; [constructor |].
    by rewrite lookup_empty in Hk. }
  apply (json_dict h 1 0%nat Sim.category); [done |].
  intros k v Hk. unfold Sim.category in Hk.
  apply lookup_insert_Some in Hk as [[_ <-] | [_ Hk]]; [by eapply Hitem |].
  apply lookup_insert_Some in Hk as [[_ <-] | [_ Hk]]; [by eapply Hitem |].
  apply lookup_insert_Some in Hk as [[_ <-] | [_ Hk]]; [by eapply Hitem |].
  by rewrite lookup_empty in Hk.
Qed.

Lemma plugin_reconfigure_replaces_handle_witness :
  exists w',
    plugin_reconfigure (PyRef 4%nat) (PyRef 0%nat)
                       (Sim.session_world Sim.good_response)
    = (Ok (PyRef (length (heap (Sim.session_world Sim.good_response)))), w')
    /\ dict_get (heap w')
                (PyRef (length (heap (Sim.session_world Sim.good_response))))
                "restart"
       = Ok (PyStr "no")
    /\ dict_get (heap w')
                (PyRef (length (heap (Sim.session_world Sim.good_response))))
                "bus"
       = Raise (KeyError "bus").
Proof.
  destruct (plugin_reconfigure_replaces_handle
              (Sim.session_world Sim.good_response) (PyRef 4%nat)
              "<object>" 0%nat Sim.category 1%nat)
    as (w' & Hp & _ & _ & _ & Hh).
  - vm_compute; reflexivity.
  - apply (category_json _ "am2315/%M/" "0x5C" "5000");
      vm_compute; reflexivity.
  - apply Nat.leb_le. vm_compute; reflexivity.
  - apply Nat.leb_le. vm_compute; reflexivity.
  - vm_compute; reflexivity.
  - destruct (Hh (heap w') (fun _ _ => eq_refl)) as (Hr & _ & Habsent).
    exists w'. split; [exact Hp |]. split; [exact Hr |].
    apply Habsent; [discriminate | vm_compute; reflexivity].
Defined.

Lemma plugin_init_copies_config_witness :
  exists w',
    plugin_init (PyRef 0%nat) Sim.fresh_world
    = (Ok (PyRef (length (heap Sim.fresh_world))), w')
    /\ dict_get (heap w') (PyRef (length (heap Sim.fresh_world))) "bus"
       = Ok (PyBus (next_bus Sim.fresh_world))
    /\ exists v',
         dict_get (heap w') (PyRef (length (heap Sim.fresh_world)))
                  "i2cAddress" = Ok v'
         /\ same_value (heap Sim.fresh_world) (heap w') (PyRef 2%nat) v'.
Proof.
  destruct (plugin_init_copies_config Sim.fresh_world 0%nat Sim.category
              1%nat (Sim.asleep_then Sim.good_response))
    as (w' & Hp & _ & _ & Hh).
  - vm_compute; reflexivity.
  - apply (category_json _ "am2315/%M/" "0x5C" "5000");
      vm_compute; reflexivity.
  - apply Nat.leb_le. vm_compute; reflexivity.
  - vm_compute; reflexivity.
  - destruct (Hh (heap w') (fun _ _ => eq_refl)) as (Hbus & Hfield & _).
    exists w'. split; [exact Hp |]. split; [exact Hbus |].
    apply Hfield; [discriminate | vm_compute; reflexivity].
Defined.

(** C9, as stated, fails on every open session: after plugin_shutdown the
    transport of the handle is still among the open ones. *)
Lemma shutdown_leaves_transport_open :
  dict_get (heap (Sim.session_world Sim.good_response)) (PyRef 4%nat) "bus"
  = Ok (PyBus 0)
  /\ elements (open_buses (Sim.session_world Sim.good_response)) = [0%nat]
  /\ elements (open_buses (snd (plugin_shutdown (PyRef 4%nat)
                                  (Sim.session_world Sim.good_response))))
     = [0%nat]
  /\ 0%nat ∈ open_buses (snd (plugin_shutdown (PyRef 4%nat)
                                (Sim.session_world Sim.good_response))).
Proof.
  assert (H : elements (open_buses
                (snd (plugin_shutdown (PyRef 4%nat)
                        (Sim.session_world Sim.good_response)))) = [0%nat])
    by (vm_compute; reflexivity).
  split; [vm_compute; reflexivity |]. split; [vm_compute; reflexivity |].
  split; [exact H |].
  apply elem_of_elements. rewrite H. by left.
Qed.

Lemma plugin_poll_preserves_handle_witness :
  dict_get (heap (snd (plugin_poll (PyRef 4%nat)
                         (Sim.session_world Sim.good_response))))
           (PyRef 4%nat) "bus"
  = dict_get (heap (Sim.session_world Sim.good_response)) (PyRef 4%nat) "bus".
Proof.
  destruct (plugin_poll_preserves_handle (PyRef 4%nat)
              (Sim.session_world Sim.good_response)
              (snd (plugin_poll (PyRef 4%nat)
                      (Sim.session_world Sim.good_response)))
              (fst (plugin_poll (PyRef 4%nat)
                      (Sim.session_world Sim.good_response))))
    as (_ & H & _).
  - apply surjective_pairing.
  - apply H. apply Nat.ltb_lt. vm_compute; reflexivity.
Defined.

(** ** The checksum and the decoded values *)

Section ChecksumRange.

Lemma lxor_bound n a b :
  0 <= a < 2 ^ n -> 0 <= b < 2 ^ n -> 0 <= Z.lxor a b < 2 ^ n.
Proof.
  intros Ha Hb.
  assert (Hn : 0 <= n).
  { destruct (Z.le_gt_cases 0 n); [done |].
    rewrite Z.pow_neg_r in Ha by lia. lia. }
  split; [apply Z.lxor_nonneg; lia |].
  destruct (Z.eq_dec (Z.lxor a b) 0) as [-> | Hne]; [lia |].
  assert (0 <= Z.lxor a b) by (apply Z.lxor_nonneg; lia).
  apply Z.log2_lt_pow2; [lia |].
  eapply Z.le_lt_trans; [apply Z.log2_lxor; lia |].
  assert (Hpos : 0 < n).
  { destruct (Z.eq_dec n 0) as [-> | ?]; [| lia].
    assert (a = 0) as -> by (simpl in Ha; lia).
    assert (b = 0) as -> by (simpl in Hb; lia).
    by rewrite Z.lxor_0_l in Hne. }
  apply Z.max_lub_lt.
  - destruct (Z.eq_dec a 0) as [-> | ?]; [simpl; lia |].
    apply Z.log2_lt_pow2; lia.
  - destruct (Z.eq_dec b 0) as [-> | ?]; [simpl; lia |].
    apply Z.log2_lt_pow2; lia.
Qed.

Lemma crc_round_range c : 0 <= c < 2 ^ 16 -> 0 <= crc_round c < 2 ^ 16.
Proof.
  intros Hc. rewrite crc_round_odd.
  apply lxor_bound.
  - rewrite Z.shiftr_div_pow2 by lia.
    split; [apply Z.div_pos; lia |].
    apply Z.div_lt_upper_bound; lia.
  - destruct (Z.odd c); lia.
Qed.

Lemma crc_update_range c b :
  0 <= c < 2 ^ 16 -> 0 <= b < 256 -> 0 <= crc_update c b < 2 ^ 16.
Proof.
  intros Hc Hb. rewrite crc_update_unfold.
  assert (H0 : 0 <= Z.lxor c b < 2 ^ 16) by (apply lxor_bound; lia).
  revert H0. generalize (Z.lxor c b). intros z Hz.
  do 8 (apply crc_round_range in Hz). exact Hz.
Qed.

Lemma crc_fold_range bs c :
  Forall (fun x => 0 <= x < 256) bs -> 0 <= c < 2 ^ 16 ->
  0 <= fold_left crc_update bs c < 2 ^ 16.
Proof.
  intros Hbs. revert c. induction Hbs as [|b bs Hb _ IH]; intros c Hc; [done |].
  simpl. apply IH. by apply crc_update_range.
Qed.

Lemma calc_crc_take l : calc_crc l = calc_crc (take 6 l).
Proof. unfold calc_crc. by rewrite take_take. Qed.

End ChecksumRange.

(** X1: the checksum computed over a response of bytes always fits 16
    bits. *)
Theorem calc_crc_fits_16_bits (sensor_response : list Z) :
  Forall (fun x => 0 <= x < 256) (take 6 sensor_response) ->
  0 <= calc_crc sensor_response < 65536.
Proof.
  intros Hb. unfold calc_crc. apply (crc_fold_range _ 65535 Hb). lia.
Qed.

Lemma calc_crc_fits_16_bits_witness : 0 <= calc_crc Sim.good_response < 65536.
Proof.
  apply calc_crc_fits_16_bits. vm_compute. repeat constructor; discriminate.
Defined.

(** X2: an 8-byte response passes the comparison of line 145 exactly when
    its last two bytes are the low and the high byte of the checksum of the
    first six. *)
Theorem checksum_matches_iff b0 b1 b2 b3 b4 b5 b6 b7 :
  Forall (fun x => 0 <= x < 256) [b0; b1; b2; b3; b4; b5; b6; b7] ->
  received_crc [b0; b1; b2; b3; b4; b5; b6; b7]
  = Ok (calc_crc [b0; b1; b2; b3; b4; b5; b6; b7])
  <-> b6 = calc_crc [b0; b1; b2; b3; b4; b5] mod 256
      /\ b7 = calc_crc [b0; b1; b2; b3; b4; b5] / 256.
Proof.
  intros Hb.
  rewrite (calc_crc_take [b0; b1; b2; b3; b4; b5; b6; b7]).
  change (take 6 [b0; b1; b2; b3; b4; b5; b6; b7])
    with [b0; b1; b2; b3; b4; b5].
  change (received_crc [b0; b1; b2; b3; b4; b5; b6; b7])
    with (Ok (A := Z) (b7 * 256 + b6)).
  assert (H6 : 0 <= b6 < 256).
  { exact (proj1 (Forall_lookup _ _) Hb 6%nat _ eq_refl). }
  assert (H7 : 0 <= b7 < 256).
  { exact (proj1 (Forall_lookup _ _) Hb 7%nat _ eq_refl). }
  generalize (calc_crc [b0; b1; b2; b3; b4; b5]). intros c.
  split.
  - intros [= <-]. split.
    + rewrite Z.add_comm, Z_mod_plus_full. by rewrite Z.mod_small.
    + rewrite Z.div_add_l by lia. rewrite Z.div_small; lia.
  - intros [-> ->]. f_equal. pose proof (Z.div_mod c 256). lia.
Qed.

Lemma checksum_matches_iff_witness :
  received_crc Sim.good_response = Ok (calc_crc Sim.good_response).
Proof.
  apply (checksum_matches_iff 3 4 1 2 1 8 81 130).
  - repeat constructor; lia.
  - split; vm_compute; reflexivity.
Defined.

(** X3: the decoded values are unsigned: both lie between 0 and 6553.5, and a
    response whose temperature word has its top bit set, which the sensor
    uses for temperatures below zero, decodes to a temperature of at least
    3276.8. *)
Theorem decoded_values_are_unsigned b0 b1 b2 b3 b4 b5 b6 b7 :
  Forall (fun x => 0 <= x < 256) [b0; b1; b2; b3; b4; b5; b6; b7] ->
  exists temperature humidity,
    temperature_of [b0; b1; b2; b3; b4; b5; b6; b7] = Ok temperature
    /\ humidity_of [b0; b1; b2; b3; b4; b5; b6; b7] = Ok humidity
    /\ Qle 0 temperature /\ Qle temperature (Qmake 65535 10)
    /\ Qle 0 humidity /\ Qle humidity (Qmake 65535 10)
    /\ (128 <= b4 -> Qle (Qmake 32768 10) temperature).
Proof.
  intros Hb.
  assert (H2 : 0 <= b2 < 256) by exact (proj1 (Forall_lookup _ _) Hb 2%nat _ eq_refl).
  assert (H3 : 0 <= b3 < 256) by exact (proj1 (Forall_lookup _ _) Hb 3%nat _ eq_refl).
  assert (H4 : 0 <= b4 < 256) by exact (proj1 (Forall_lookup _ _) Hb 4%nat _ eq_refl).
  assert (H5 : 0 <= b5 < 256) by exact (proj1 (Forall_lookup _ _) Hb 5%nat _ eq_refl).
  eexists _, _. split; [reflexivity |]. split; [reflexivity |].
  unfold Qle, Qdiv, Qmult, Qinv, inject_Z. cbn [Qnum Qden].
  change (Z.pos (1 * 10)) with 10.
  repeat match goal with
         | |- _ /\ _ => split
         | |- 128 <= _ -> _ => intros ?
         end; lia.
Qed.

Lemma decoded_values_are_unsigned_witness :
  exists temperature,
    temperature_of [3; 4; 1; 2; 255; 246; 0; 0] = Ok temperature
    /\ Qle (Qmake 32768 10) temperature.
Proof.
  destruct (decoded_values_are_unsigned 3 4 1 2 255 246 0 0)
    as (t & h & Ht & _ & _ & _ & _ & _ & Hs).
  - repeat constructor; lia.
  - exists t. split; [exact Ht |]. apply Hs. lia.
Defined.

(** ** Responses of the sensor *)

Section PollResponses.

Context {E : Type} `{HostE : Host E}.

(** What poll_body does once the data request has been accepted, by the
    outcome [r] of the read. *)
Lemma poll_body_after_read b addr asset (w : world E) r1 e1 e2 r e3 :
  write_i2c_block_data b addr 3 [0; 4] (env w) = (r1, e1) ->
  write_i2c_block_data b addr 3 [0; 4] e1 = (None, e2) ->
  read_i2c_block_data b addr 3 8 e2 = (r, e3) ->
  poll_body (PyBus b) addr asset w =
    match r with
    | Raise ex => (Raise ex, after_read b addr e3 w)
    | Ok raw =>
        match Builtins.bytearray raw with
        | Raise ex => (Raise ex, after_read b addr e3 w)
        | Ok resp =>
            match temperature_of resp, humidity_of resp, received_crc resp with
            | Ok t, Ok hu, Ok _ =>
                let '(ts, e4) := local_timestamp e3 in
                let '(key, e5) := uuid4_str e4 in
                (Ok (PyRef (S (length (heap w)))),
                 World (heap w ++ reading_dicts asset ts key t hu
                                    (length (heap w)))
                       (next_bus w) (open_buses w)
                       (trace w ++ poll_calls b addr) (log w) e5)
            | Raise ex, _, _ => (Raise ex, after_read b addr e3 w)
            | Ok _, Raise ex, _ => (Raise ex, after_read b addr e3 w)
            | Ok _, Ok _, Raise ex => (Raise ex, after_read b addr e3 w)
            end
        end
    end.
Proof.
  intros H1 H2 H3. destruct w as [h nb ob tr lg e]. cbn [env] in H1.
  cbv beta iota zeta delta
    [try_except poll_body bind bus_write bus_read lift ret after_read].
  cbn [env]. rewrite H1.
  destruct r1;
    unfold set_env, add_call; cbn [heap env trace log next_bus open_buses];
    rewrite H2; cbn [heap env trace log next_bus open_buses];
    rewrite H3; cbn [heap env trace log next_bus open_buses];
    unfold poll_calls; rewrite <- !app_assoc; cbn [app];
    (destruct r as [raw | ex]; [| reflexivity]);
    (destruct (Builtins.bytearray raw) as [resp | ex]; [| reflexivity]);
    (destruct (temperature_of resp) as [t | ex]; [| reflexivity]);
    (destruct (humidity_of resp) as [hu | ex]; [| reflexivity]);
    (destruct (received_crc resp) as [crc | ex]; [| reflexivity]);
    destruct (negb _);
    unfold utils_local_timestamp, str_uuid4, new_dict, set_heap, set_env;
    cbn [heap env trace log next_bus open_buses];
    destruct (local_timestamp e3) as [ts e4];
    cbn [heap env trace log next_bus open_buses];
    destruct (uuid4_str e4) as [key e5];
    cbn [heap env trace log next_bus open_buses];
    unfold reading_dicts;
    rewrite length_app, Nat.add_1_r, <- !app_assoc; reflexivity.
Qed.

Lemma bytearray_bad raw :
  Exists (fun x => ~ 0 <= x < 256) raw ->
  Builtins.bytearray raw = Raise (ValueError "byte must be in range(0, 256)").
Proof.
  intros H. unfold Builtins.bytearray.
  replace (forallb _ raw) with false; [done |].
  symmetry. apply not_true_is_false. intros Hf.
  rewrite forallb_forall in Hf. apply Exists_exists in H as (x & Hin & Hx).
  apply Hx. apply list_elem_of_In in Hin. apply Hf in Hin. lia.
Qed.

(** A response of fewer than eight bytes cannot be decoded. *)
Lemma short_response_index_error resp :
  (length resp < 8)%nat ->
  match temperature_of resp, humidity_of resp, received_crc resp with
  | Ok _, Ok _, Ok _ => False
  | Raise ex, _, _ | Ok _, Raise ex, _ | Ok _, Ok _, Raise ex =>
      ex = IndexError "bytearray index out of range"
  end.
Proof.
  intros Hlen.
  do 8 (destruct resp as [|? resp]; [reflexivity |]).
  simpl in Hlen. lia.
Qed.

(** X4: when the read itself fails, plugin_poll raises DataRetrievalError
    with the exception of the read as its cause, after exactly two writes and
    one read, and logs one record. *)
Theorem poll_read_failure handle (w : world E) b addr asset r1 e1 e2 ex e3 :
  poll_prelude handle w = (Ok (PyBus b, addr, asset), w) ->
  write_i2c_block_data b addr 3 [0; 4] (env w) = (r1, e1) ->
  write_i2c_block_data b addr 3 [0; 4] e1 = (None, e2) ->
  read_i2c_block_data b addr 3 8 e2 = (Raise ex, e3) ->
  plugin_poll handle w
  = (Raise (DataRetrievalError ex),
     World (heap w) (next_bus w) (open_buses w)
           (trace w ++ poll_calls b addr)
           (log w ++ [(ERROR, "AM2315 exception: " +:+ exn_str ex)]) e3).
Proof.
  intros Hp H1 H2 H3.
  pose proof (poll_body_after_read b addr asset w _ _ _ _ _ H1 H2 H3) as Hb.
  cbv beta iota in Hb.
  by rewrite (plugin_poll_raise _ _ _ _ _ _ _ Hp Hb).
Qed.

(** X5: a response that is too short, or that holds a value outside 0..255,
    is refused: plugin_poll raises DataRetrievalError with an IndexError,
    respectively a ValueError, as its cause; no Reading is allocated and one
    record is logged. *)
Theorem poll_malformed_response handle (w : world E) b addr asset
    r1 e1 e2 raw e3 :
  poll_prelude handle w = (Ok (PyBus b, addr, asset), w) ->
  write_i2c_block_data b addr 3 [0; 4] (env w) = (r1, e1) ->
  write_i2c_block_data b addr 3 [0; 4] e1 = (None, e2) ->
  read_i2c_block_data b addr 3 8 e2 = (Ok raw, e3) ->
  (Exists (fun x => ~ 0 <= x < 256) raw ->
   plugin_poll handle w
   = (Raise (DataRetrievalError (ValueError "byte must be in range(0, 256)")),
      World (heap w) (next_bus w) (open_buses w)
            (trace w ++ poll_calls b addr)
            (log w ++ [(ERROR, "AM2315 exception: byte must be in range(0, 256)")])
            e3))
  /\ (Forall (fun x => 0 <= x < 256) raw -> (length raw < 8)%nat ->
      plugin_poll handle w
      = (Raise (DataRetrievalError (IndexError "bytearray index out of range")),
         World (heap w) (next_bus w) (open_buses w)
               (trace w ++ poll_calls b addr)
               (log w ++ [(ERROR, "AM2315 exception: bytearray index out of range")])
               e3)).
Proof.
  intros Hp H1 H2 H3.
  pose proof (poll_body_after_read b addr asset w _ _ _ _ _ H1 H2 H3) as Hb.
  cbv beta iota in Hb.
  split.
  - intros Hbad. rewrite (bytearray_bad _ Hbad) in Hb.
    by rewrite (plugin_poll_raise _ _ _ _ _ _ _ Hp Hb).
  - intros Hok Hlen. rewrite (bytearray_ok _ Hok) in Hb.
    pose proof (short_response_index_error raw Hlen) as Hs.
    destruct (temperature_of raw) as [t | ex1];
      [destruct (humidity_of raw) as [hu | ex2];
       [destruct (received_crc raw) as [c | ex3]; [done |] |] |];
      subst; by rewrite (plugin_poll_raise _ _ _ _ _ _ _ Hp Hb).
Qed.

(** X6: of a response longer than eight bytes only the first eight are
    read: the Reading and the world are those of the 8-byte response. *)
Theorem poll_ignores_extra_bytes handle (w : world E) b addr asset
    r1 e1 e2 e3 b0 b1 b2 b3 b4 b5 b6 b7 rest ts e4 key e5 :
  poll_prelude handle w = (Ok (PyBus b, addr, asset), w) ->
  write_i2c_block_data b addr 3 [0; 4] (env w) = (r1, e1) ->
  write_i2c_block_data b addr 3 [0; 4] e1 = (None, e2) ->
  read_i2c_block_data b addr 3 8 e2
  = (Ok ([b0; b1; b2; b3; b4; b5; b6; b7] ++ rest), e3) ->
  Forall (fun x => 0 <= x < 256) ([b0; b1; b2; b3; b4; b5; b6; b7] ++ rest) ->
  local_timestamp e3 = (ts, e4) ->
  uuid4_str e4 = (key, e5) ->
  plugin_poll handle w
  = (Ok (PyRef (S (length (heap w)))),
     World (heap w ++ reading_dicts asset ts key
                        (Qdiv (inject_Z (b4 * 256 + b5)) (inject_Z 10))
                        (Qdiv (inject_Z (b2 * 256 + b3)) (inject_Z 10))
                        (length (heap w)))
           (next_bus w) (open_buses w)
           (trace w ++ poll_calls b addr) (log w) e5).
Proof.
  intros Hp H1 H2 H3 Hok H4 H5.
  pose proof (poll_body_after_read b addr asset w _ _ _ _ _ H1 H2 H3) as Hb.
  cbv beta iota in Hb.
  rewrite (bytearray_ok _ Hok) in Hb.
  change (temperature_of ([b0; b1; b2; b3; b4; b5; b6; b7] ++ rest))
    with (Ok (A := Q) (Qdiv (inject_Z (b4 * 256 + b5)) (inject_Z 10))) in Hb.
  change (humidity_of ([b0; b1; b2; b3; b4; b5; b6; b7] ++ rest))
    with (Ok (A := Q) (Qdiv (inject_Z (b2 * 256 + b3)) (inject_Z 10))) in Hb.
  change (received_crc ([b0; b1; b2; b3; b4; b5; b6; b7] ++ rest))
    with (Ok (A := Z) (b7 * 256 + b6)) in Hb.
  cbv beta iota in Hb. rewrite H4, H5 in Hb.
  by rewrite (plugin_poll_return _ _ _ _ _ _ _ Hp Hb).
Qed.

End PollResponses.

(** ** Errors and the protocol of plugin_poll *)

Section PollEdges.

Context {E : Type} `{HostE : Host E}.

Lemma dict_get_ref (h : list (gmap string pyval)) l d key :
  h !! l = Some d ->
  dict_get h (PyRef l) key
  = match d !! key with Some v => Ok v | None => Raise (KeyError key) end.
Proof. intros H. unfold dict_get. by rewrite H. Qed.

(** X7: what is wrong with the handle is reported before anything else
    happens, in the order in which lines 106-115 read it, as the bare
    exception: a missing "bus", a missing "i2cAddress", an address that is
    no hexadecimal literal (the message shows its repr, cut at 200
    characters) or no str, a missing "assetName".  No call reaches the
    transport and nothing is logged. *)
Theorem poll_configuration_errors (w : world E) l d :
  heap w !! l = Some d ->
  (d !! "bus" = None ->
   plugin_poll (PyRef l) w = (Raise (KeyError "bus"), w))
  /\ (forall bus,
        d !! "bus" = Some bus -> d !! "i2cAddress" = None ->
        plugin_poll (PyRef l) w = (Raise (KeyError "i2cAddress"), w))
  /\ (forall bus item a,
        d !! "bus" = Some bus -> d !! "i2cAddress" = Some item ->
        dict_get (heap w) item "value" = Ok (PyStr a) ->
        Builtins.int_base16 a = None ->
        plugin_poll (PyRef l) w
        = (Raise (ValueError ("invalid literal for int() with base 16: "
                                +:+ String.substring 0 200 (Builtins.repr a))),
           w))
  /\ (forall bus item v,
        d !! "bus" = Some bus -> d !! "i2cAddress" = Some item ->
        dict_get (heap w) item "value" = Ok v ->
        (forall a, v <> PyStr a) ->
        plugin_poll (PyRef l) w
        = (Raise (TypeError
                    "int() can't convert non-string with explicit base"), w))
  /\ (forall bus item a n,
        d !! "bus" = Some bus -> d !! "i2cAddress" = Some item ->
        dict_get (heap w) item "value" = Ok (PyStr a) ->
        Builtins.int_base16 a = Some n ->
        d !! "assetName" = None ->
        plugin_poll (PyRef l) w = (Raise (KeyError "assetName"), w)).
Proof.
  intros Hd.
  repeat match goal with |- _ /\ _ => split end; intros;
    apply plugin_poll_prelude_raise;
    unfold poll_prelude, bind, getitem, py_int16, raise, ret;
    repeat first
      [ rewrite (dict_get_ref _ _ _ _ Hd)
      | match goal with Hx : _ = _ |- _ => rewrite Hx end ];
    try reflexivity.
  destruct v; try reflexivity.
  by match goal with Hv : forall a, _ <> _ |- _ => destruct (Hv s) end.
Qed.

(** X8: when the object under "bus" is no SMBus object, the wake-up call
    fails silently and the data request fails again: plugin_poll raises
    DataRetrievalError with the AttributeError as its cause, whose text
    names the class of the object, logs that text, and no call reaches any
    transport. *)
Theorem poll_without_bus_object handle (w : world E) bus addr asset :
  poll_prelude handle w = (Ok (bus, addr, asset), w) ->
  (forall b, bus <> PyBus b) ->
  plugin_poll handle w
  = (Raise (DataRetrievalError
              (AttributeError
                 ("'" +:+ type_name bus
                    +:+ "' object has no attribute 'write_i2c_block_data'"))),
     add_log (ERROR,
              "AM2315 exception: '" +:+ type_name bus
                +:+ "' object has no attribute 'write_i2c_block_data'")
             w).
Proof.
  intros Hp Hb.
  rewrite (plugin_poll_raise handle w w bus addr asset
             (AttributeError
                ("'" +:+ type_name bus
                   +:+ "' object has no attribute 'write_i2c_block_data'"))
             Hp); [reflexivity |].
  destruct bus; try reflexivity. by destruct (Hb b).
Qed.

(** The calls of the body of the [try]: none, the two writes, or the two
    writes and the read. *)
Lemma poll_body_calls bus addr asset (w w' : world E) r :
  poll_body bus addr asset w = (r, w') ->
  (trace w' = trace w /\ (forall b, bus <> PyBus b) /\ exists ex, r = Raise ex)
  \/ exists b,
       bus = PyBus b
       /\ ((trace w' = trace w ++ [WriteBlock b addr 3 [0; 4];
                                   WriteBlock b addr 3 [0; 4]]
            /\ exists ex, r = Raise ex)
           \/ trace w' = trace w ++ poll_calls b addr).
Proof.
  destruct w as [h nb ob tr lg e].
  cbv beta iota zeta delta
    [try_except poll_body bind bus_write bus_read lift ret
     utils_local_timestamp str_uuid4 new_dict].
  intros H.
  repeat (case_match; simplify_eq);
    cbn [set_heap set_env add_call heap env trace log next_bus open_buses]
      in *; simplify_eq;
    try (left; split; [done |]; split; [done | by eexists]);
    right; eexists; (split; [done |]);
    rewrite <- ?app_assoc;
    first [ by right | left; split; [done | by eexists] ].
Qed.

Lemma dict_get_exceptions (h : list (gmap string pyval)) x key ex :
  dict_get h x key = Raise ex -> forall cause, ex <> DataRetrievalError cause.
Proof.
  unfold dict_get. intros H cause. repeat case_match; simplify_eq; done.
Qed.

Lemma poll_prelude_exceptions handle (w w' : world E) ex :
  poll_prelude handle w = (Raise ex, w') ->
  forall cause, ex <> DataRetrievalError cause.
Proof.
  unfold poll_prelude, bind, getitem, py_int16, py_str, py_replace, ret, raise.
  intros H cause.
  repeat (case_match; simplify_eq); try done;
    by eapply dict_get_exceptions.
Qed.

(** X9: plugin_poll never does more on the transport than two block writes
    followed by one block read of 8 bytes, all with function code 3 and to
    the same address; the read is only issued after the second write, and a
    Reading is only returned after all three calls. *)
Theorem poll_call_protocol handle (w w' : world E) r :
  plugin_poll handle w = (r, w') ->
  (trace w' = trace w /\ exists ex, r = Raise ex)
  \/ exists b addr,
       (trace w' = trace w ++ [WriteBlock b addr 3 [0; 4];
                               WriteBlock b addr 3 [0; 4]]
        /\ exists ex, r = Raise ex)
       \/ trace w' = trace w ++ poll_calls b addr.
Proof.
  intros Hpoll.
  destruct (poll_prelude handle w) as [[[[bus addr] asset] | ex] w0] eqn:Hp;
    pose proof (poll_prelude_pure _ _ _ _ Hp) as ->.
  - destruct (poll_body bus addr asset w) as [[v | ex] w1] eqn:Hb;
      [ rewrite (plugin_poll_return _ _ _ _ _ _ _ Hp Hb) in Hpoll
      | rewrite (plugin_poll_raise _ _ _ _ _ _ _ Hp Hb) in Hpoll ];
      simplify_eq;
      destruct (poll_body_calls _ _ _ _ _ _ Hb)
        as [(Ht & _ & ex' & ?) | (b & -> & [(Ht & ex' & ?) | Ht])];
      simplify_eq; cbn [add_log trace];
      first [ left; split; [done | by eexists]
            | right; exists b, addr; left; split; [done | by eexists]
            | right; exists b, addr; by right ].
  - rewrite (plugin_poll_prelude_raise _ _ _ Hp) in Hpoll. simplify_eq.
    left. split; [done | by eexists].
Qed.

(** X10: plugin_poll has three kinds of outcome: it returns the reference of
    a Reading and logs nothing; it raises DataRetrievalError and logs exactly
    one ERROR record with the text of the cause; or it raises an exception of
    another class from the statements before the [try], and then the world
    is exactly as it was. *)
Theorem poll_outcomes handle (w w' : world E) r :
  plugin_poll handle w = (r, w') ->
  (r = Ok (PyRef (S (length (heap w)))) /\ log w' = log w)
  \/ (exists cause,
        r = Raise (DataRetrievalError cause)
        /\ log w' = log w ++ [(ERROR, "AM2315 exception: " +:+ exn_str cause)]
        /\ heap w' = heap w)
  \/ (exists ex,
        r = Raise ex /\ w' = w
        /\ forall cause, ex <> DataRetrievalError cause).
Proof.
  intros Hpoll.
  destruct (poll_prelude handle w) as [[[[bus addr] asset] | ex] w0] eqn:Hp;
    pose proof (poll_prelude_pure _ _ _ _ Hp) as ->.
  - destruct (poll_body bus addr asset w) as [[v | ex] w1] eqn:Hb;
      [ rewrite (plugin_poll_return _ _ _ _ _ _ _ Hp Hb) in Hpoll
      | rewrite (plugin_poll_raise _ _ _ _ _ _ _ Hp Hb) in Hpoll ];
      apply poll_body_frame in Hb as (_ & _ & Hlog & _ & Hh); simplify_eq.
    + left. by destruct Hh as [-> _].
    + right. left. exists ex. cbn [add_log log heap]. by rewrite Hlog.
  - rewrite (plugin_poll_prelude_raise _ _ _ Hp) in Hpoll. simplify_eq.
    right. right. exists ex. split; [done |]. split; [done |].
    by eapply poll_prelude_exceptions.
Qed.

End PollEdges.

(** ** Successive polls *)

Section PollRepeated.

Context {E : Type} `{HostE : Host E}.

Lemma dict_get_app (h ext : list (gmap string pyval)) x key v :
  dict_get h x key = Ok v -> dict_get (h ++ ext) x key = Ok v.
Proof.
  unfold dict_get. destruct x; try done.
  destruct (h !! l) as [d |] eqn:Hl; [| done].
  by rewrite (lookup_app_l_Some _ _ _ _ Hl).
Qed.

Lemma session_app (h ext : list (gmap string pyval)) handle b a t :
  session h handle b a t -> session (h ++ ext) handle b a t.
Proof.
  intros (Hb & (i1 & Hi1 & Hv1) & (i2 & Hi2 & Hv2)).
  split; [by apply dict_get_app |].
  split; [exists i1 | exists i2]; split; by apply dict_get_app.
Qed.

(** The store after a poll is the store before, followed by the dicts of
    the Reading if there is one. *)
Lemma plugin_poll_store handle (w w' : world E) r :
  plugin_poll handle w = (r, w') ->
  match r with
  | Ok reading =>
      reading = PyRef (S (length (heap w)))
      /\ exists d1 d2, heap w' = heap w ++ [d1; d2]
  | Raise _ => heap w' = heap w
  end.
Proof.
  intros Hpoll.
  destruct (poll_prelude handle w) as [[[[bus addr] asset] | ex] w0] eqn:Hp;
    pose proof (poll_prelude_pure _ _ _ _ Hp) as ->.
  - destruct (poll_body bus addr asset w) as [[v | ex] w1] eqn:Hb;
      [ rewrite (plugin_poll_return _ _ _ _ _ _ _ Hp Hb) in Hpoll
      | rewrite (plugin_poll_raise _ _ _ _ _ _ _ Hp Hb) in Hpoll ];
      apply poll_body_frame in Hb as (_ & _ & _ & _ & Hh); by simplify_eq.
  - rewrite (plugin_poll_prelude_raise _ _ _ Hp) in Hpoll. by simplify_eq.
Qed.

(** X11: a session handle stays a session handle through any poll, whatever
    its outcome; and of two successive polls that return, the second returns
    a Reading at another reference and leaves every item of the first
    Reading, and of its readings dict, as it was. *)
Theorem polls_can_be_repeated handle (w w1 w2 : world E) b a t r1 r2 :
  session (heap w) handle b a t ->
  plugin_poll handle w = (r1, w1) ->
  plugin_poll handle w1 = (r2, w2) ->
  session (heap w1) handle b a t
  /\ session (heap w2) handle b a t
  /\ forall reading1 reading2,
       r1 = Ok reading1 -> r2 = Ok reading2 ->
       reading1 <> reading2
       /\ exists readings1,
            dict_get (heap w1) reading1 "readings" = Ok readings1
            /\ forall key,
                 dict_get (heap w2) reading1 key
                 = dict_get (heap w1) reading1 key
                 /\ dict_get (heap w2) readings1 key
                    = dict_get (heap w1) readings1 key.
Proof.
  intros Hs H1 H2.
  pose proof (plugin_poll_store _ _ _ _ H1) as Hst1.
  pose proof (plugin_poll_store _ _ _ _ H2) as Hst2.
  assert (Hs1 : session (heap w1) handle b a t).
  { destruct r1 as [v | ex].
    - destruct Hst1 as (_ & d1 & d2 & ->). by apply session_app.
    - by rewrite Hst1. }
  split; [done |]. split.
  { destruct r2 as [v | ex].
    - destruct Hst2 as (_ & d1 & d2 & ->). by apply session_app.
    - by rewrite Hst2. }
  intros reading1 reading2 -> ->.
  destruct Hst1 as (-> & d1 & d2 & Hh1).
  destruct Hst2 as (-> & d3 & d4 & Hh2).
  split.
  { rewrite Hh1, length_app. simpl. intros [= Heq]. lia. }
  assert (Hreadings :
    dict_get (heap w1) (PyRef (S (length (heap w)))) "readings"
    = Ok (PyRef (length (heap w)))).
  { destruct (poll_prelude handle w) as [[[[bus addr] asset] | ex] w0] eqn:Hp;
      pose proof (poll_prelude_pure _ _ _ _ Hp) as ->.
    - destruct (poll_body bus addr asset w) as [[v | ex] w0] eqn:Hb;
        [ rewrite (plugin_poll_return _ _ _ _ _ _ _ Hp Hb) in H1
        | rewrite (plugin_poll_raise _ _ _ _ _ _ _ Hp Hb) in H1 ];
        simplify_eq.
      clear -Hb. destruct w as [h nb ob tr lg e]. revert Hb.
      cbv beta iota zeta delta
        [try_except poll_body bind bus_write bus_read lift ret
         utils_local_timestamp str_uuid4 new_dict].
      intros Hb.
      repeat (case_match; simplify_eq);
        cbn [set_heap set_env add_call heap env trace log next_bus open_buses]
          in *; simplify_eq;
        unfold dict_get;
        rewrite lookup_app_r by (rewrite length_app; simpl; lia);
        rewrite length_app; simpl;
        replace (S (length h) - (length h + 1))%nat with 0%nat by lia;
        reflexivity.
    - rewrite (plugin_poll_prelude_raise _ _ _ Hp) in H1. simplify_eq. }
  exists (PyRef (length (heap w))). split; [done |].
  intros key. unfold dict_get. rewrite Hh2, Hh1.
  rewrite !(lookup_app_l (_ ++ [d1; d2])) by (rewrite length_app; simpl; lia).
  done.
Qed.

End PollRepeated.

(** ** The log, and polling after plugin_shutdown *)

Section PollLog.

Context {E : Type} `{HostE : Host E}.

Lemma poll_prelude_with_log handle (w : world E) lg :
  poll_prelude handle (with_log lg w)
  = (fst (poll_prelude handle w), with_log lg w).
Proof.
  destruct w as [h nb ob tr lg0 e].
  unfold poll_prelude, bind, getitem, py_int16, py_str, py_replace, ret, raise,
    with_log.
  cbn [heap next_bus open_buses trace log env].
  repeat (case_match; cbn [heap next_bus open_buses trace log env] in *;
          simplify_eq; try reflexivity).
Qed.

Lemma poll_body_with_log bus addr asset (w : world E) lg :
  poll_body bus addr asset (with_log lg w)
  = (fst (poll_body bus addr asset w),
     with_log lg (snd (poll_body bus addr asset w))).
Proof.
  destruct w as [h nb ob tr lg0 e]. unfold with_log.
  cbv beta iota zeta delta
    [try_except poll_body bind bus_write bus_read lift ret
     utils_local_timestamp str_uuid4 new_dict].
  cbn [set_heap set_env add_call heap env trace log next_bus open_buses].
  repeat (case_match; simplify_eq;
          cbn [set_heap set_env add_call heap env trace log next_bus
               open_buses fst snd] in *;
          try reflexivity).
Qed.

(** plugin_poll does not read the log: run with another log, it does the
    same and appends the same records. *)
Lemma plugin_poll_with_log handle (w : world E) lg :
  exists new,
    log (snd (plugin_poll handle w)) = log w ++ new
    /\ plugin_poll handle (with_log lg w)
       = (fst (plugin_poll handle w),
          with_log (lg ++ new) (snd (plugin_poll handle w))).
Proof.
  destruct (poll_prelude handle w) as [[[[bus addr] asset] | ex] w0] eqn:Hp;
    pose proof (poll_prelude_pure _ _ _ _ Hp) as ->.
  - assert (Hp' : poll_prelude handle (with_log lg w)
                  = (Ok (bus, addr, asset), with_log lg w))
      by by rewrite poll_prelude_with_log, Hp.
    pose proof (poll_body_with_log bus addr asset w lg) as Hb'.
    destruct (poll_body bus addr asset w) as [[v | ex] w1] eqn:Hb;
      cbn [fst snd] in Hb';
      pose proof (poll_body_frame _ _ _ _ _ _ Hb) as (_ & _ & Hlog & _).
    + rewrite (plugin_poll_return _ _ _ _ _ _ _ Hp Hb).
      rewrite (plugin_poll_return _ _ _ _ _ _ _ Hp' Hb').
      exists []. cbn [fst snd]. by rewrite !app_nil_r.
    + rewrite (plugin_poll_raise _ _ _ _ _ _ _ Hp Hb).
      rewrite (plugin_poll_raise _ _ _ _ _ _ _ Hp' Hb').
      exists [(ERROR, "AM2315 exception: " +:+ exn_str ex)].
      cbn [fst snd add_log log]. by rewrite Hlog.
  - assert (Hp' : poll_prelude handle (with_log lg w)
                  = (Raise ex, with_log lg w))
      by by rewrite poll_prelude_with_log, Hp.
    rewrite (plugin_poll_prelude_raise _ _ _ Hp).
    rewrite (plugin_poll_prelude_raise _ _ _ Hp').
    exists []. cbn [fst snd]. by rewrite !app_nil_r.
Qed.

(** X12: plugin_shutdown does not end the session: a poll after it does on
    the transport, returns and allocates what the same poll would have done
    before it; only the log differs, by the record of the shutdown. *)
Theorem poll_after_shutdown handle handle' (w : world E) :
  exists new,
    log (snd (plugin_poll handle w)) = log w ++ new
    /\ plugin_poll handle (snd (plugin_shutdown handle' w))
       = (fst (plugin_poll handle w),
          with_log (log w ++ [(INFO, "AM2315 poll plugin shut down.")] ++ new)
                   (snd (plugin_poll handle w))).
Proof.
  destruct (plugin_poll_with_log handle w
              (log w ++ [(INFO, "AM2315 poll plugin shut down.")]))
    as (new & Hlog & Hpoll).
  exists new. split; [done |].
  rewrite <- app_assoc in Hpoll. exact Hpoll.
Qed.

End PollLog.

(** ** What plugin_init and plugin_reconfigure leave alone *)

Section DeepcopyFrame.

Variable copy_bus : nat -> result nat.

(** Whatever it copies, [deepcopy_rec] only appends to the store; the copy
    of a dict that is not in the memo is the first dict it appends. *)
Lemma deepcopy_rec_extends fuel :
  forall x memo (h : list (gmap string pyval)) x' memo' h',
    deepcopy_rec copy_bus fuel x memo h = Ok (x', memo', h') ->
    (exists ext, h' = h ++ ext)
    /\ (forall l, x = PyRef l -> memo !! l = None ->
                  x' = PyRef (length h) /\ (length h < length h')%nat)
    /\ (forall l, x' = PyRef l -> exists l0, x = PyRef l0).
Proof.
  induction fuel as [|fuel IH]; intros x memo h x' memo' h' Hrec.
  - destruct x; simpl in Hrec; try (simplify_eq; split;
      [exists []; by rewrite app_nil_r | split; [done | intros; by simplify_eq]]).
    + destruct (memo !! l) eqn:Hl; simplify_eq.
      split; [exists []; by rewrite app_nil_r |].
      split; [intros ? [= <-] ?; congruence | by eexists].
    + destruct (copy_bus b); simplify_eq.
      split; [exists []; by rewrite app_nil_r | split; [done | intros; by simplify_eq]].
  - destruct x; cbn [deepcopy_rec] in Hrec; try (simplify_eq; split;
      [exists []; by rewrite app_nil_r | split; [done | intros; by simplify_eq]]).
    + destruct (memo !! l) eqn:Hl.
      { simplify_eq. split; [exists []; by rewrite app_nil_r |].
        split; [intros ? [= <-] ?; congruence | by eexists]. }
      destruct (h !! l) as [d |] eqn:Hd; [| done].
      match type of Hrec with
      | context [map_fold ?f ?b d] =>
          assert (Hloop : forall memo_i h_i,
                     map_fold f b d = Ok (memo_i, h_i) ->
                     exists ext, h_i = h ++ ext /\ (1 <= length ext)%nat);
            [| destruct (map_fold f b d) as [[memo_i h_i] | ex] eqn:Hfold;
               [| done] ]
      end.
      { apply (map_fold_weak_ind
                 (fun r (_ : gmap string pyval) =>
                    forall memo_i h_i, r = Ok (memo_i, h_i) ->
                      exists ext, h_i = h ++ ext /\ (1 <= length ext)%nat)).
        - intros memo_i h_i [= <- <-]. exists [∅]. by split.
        - intros i v m r _ HP memo_i h_i Hstep.
          destruct r as [[memo1 h1] | ex]; [| done].
          destruct (HP _ _ eq_refl) as (ext1 & -> & Hlen).
          destruct (deepcopy_rec copy_bus fuel v memo1 (h ++ ext1))
            as [[[v' memo2] h2] | ex] eqn:Hv; [| done].
          simplify_eq.
          destruct (IH _ _ _ _ _ _ Hv) as ([ext2 ->] & _).
          rewrite <- app_assoc. rewrite alter_app_r_alt by lia.
          eexists. split; [reflexivity |].
          rewrite length_alter, length_app. lia. }
      simplify_eq. destruct (Hloop _ _ eq_refl) as (ext & -> & Hlen).
      split; [by eexists |]. split; [| by eexists].
      intros ? _ _. split; [done |]. rewrite length_app. lia.
    + destruct (copy_bus b); simplify_eq.
      split; [exists []; by rewrite app_nil_r | split; [done | intros; by simplify_eq]].
Qed.

End DeepcopyFrame.

Section LifecycleFrame.

Context {E : Type} `{HostE : Host E}.

Lemma deepcopy_extends x (w w' : world E) r :
  deepcopy x w = (r, w') ->
  next_bus w' = next_bus w /\ open_buses w' = open_buses w
  /\ trace w' = trace w /\ log w' = log w /\ env w' = env w
  /\ match r with
     | Ok y =>
         (exists ext, heap w' = heap w ++ ext)
         /\ (forall l, y = PyRef l ->
               l = length (heap w) /\ (l < length (heap w'))%nat)
     | Raise _ => w' = w
     end.
Proof.
  unfold deepcopy. intros H.
  destruct (deepcopy_rec deepcopy_SMBus recursion_limit x ∅ (heap w))
    as [[[y memo'] h'] | ex] eqn:Hrec; simplify_eq; [| done].
  destruct (deepcopy_rec_extends _ _ _ _ _ _ _ _ Hrec) as (Hext & Hnew & Hsrc).
  do 5 (split; [done |]). split; [exact Hext |].
  intros l ->. destruct (Hsrc l eq_refl) as [l0 ->].
  destruct (Hnew l0 eq_refl (lookup_empty _)) as [[= ->] Hlt]. done.
Qed.

(** X13: plugin_init, for every configuration and every outcome, leaves the
    existing objects as they were and makes no call on the transport; when it
    returns, the handle is a new dict, and the bus it holds is the one SMBus
    object that the call opened. *)
Theorem plugin_init_keeps_the_store config (w w' : world E) r :
  plugin_init config w = (r, w') ->
  (exists ext, heap w' = heap w ++ ext)
  /\ trace w' = trace w
  /\ (open_buses w' = open_buses w
      \/ open_buses w' = {[next_bus w]} ∪ open_buses w)
  /\ forall handle,
       r = Ok handle ->
       handle = PyRef (length (heap w))
       /\ dict_get (heap w') handle "bus" = Ok (PyBus (next_bus w))
       /\ open_buses w' = {[next_bus w]} ∪ open_buses w.
Proof.
  unfold plugin_init, bind at 1. intros H.
  destruct (deepcopy config w) as [[data | ex] w1] eqn:Hcopy.
  2:{ apply deepcopy_extends in Hcopy as (_ & _ & _ & _ & _ & ->).
      simplify_eq. split; [exists []; by rewrite app_nil_r |].
      split; [done |]. split; [by left | done]. }
  apply deepcopy_extends in Hcopy
    as (Hnb & Hob & Htr & Hlg & Henv & [ext Hext] & Hfresh).
  destruct w1 as [h1 nb1 ob1 tr1 lg1 e1].
  cbn [heap next_bus open_buses trace log env] in *. subst.
  revert H. unfold bind at 1, SMBus.
  cbn [heap next_bus open_buses trace log env].
  destruct (SMBus_new 1 (env w)) as [[ex |] e'].
  { intros [= <- <-]. cbn. split; [by eexists |]. split; [done |].
    split; [by left | done]. }
  unfold bind, setitem, logger_info, ret, add_log, set_heap.
  cbn [heap next_bus open_buses trace log env].
  destruct data as [| | | | l |];
    try (intros [= <- <-]; cbn; split; [by eexists |]; split; [done |];
         split; [by right | done]).
  destruct (Hfresh l eq_refl) as [-> Hlt].
  destruct ((heap w ++ ext) !! length (heap w)) as [d' |] eqn:Hd'.
  2:{ apply lookup_ge_None in Hd'. lia. }
  intros [= <- <-]. cbn [heap next_bus open_buses trace log env].
  split; [rewrite insert_app_r_alt by lia; by eexists |].
  split; [done |]. split; [by right |].
  intros handle [= <-]. split; [done |]. split; [| done].
  unfold dict_get. rewrite list_lookup_insert_eq by done.
  by rewrite lookup_insert_eq.
Qed.

(** X14: plugin_reconfigure, for every pair of arguments and every outcome,
    leaves the existing objects (the old handle among them) as they were and
    does nothing to any transport.  Either line 177 cannot build the text of
    one of its arguments: then RecursionError is raised and the world is as
    it was, nothing is logged; or one record is logged before anything else.
    When it returns, the record has been logged and the new handle is a new
    dict with "restart" = "no". *)
Theorem plugin_reconfigure_keeps_the_store handle new_config
    (w w' : world E) r :
  plugin_reconfigure handle new_config w = (r, w') ->
  (exists ext, heap w' = heap w ++ ext)
  /\ trace w' = trace w /\ open_buses w' = open_buses w
  /\ next_bus w' = next_bus w /\ env w' = env w
  /\ ((exists record, log w' = log w ++ [(INFO, record)])
      \/ (w' = w /\ exists msg, r = Raise (RecursionError msg)))
  /\ forall new_handle,
       r = Ok new_handle ->
       new_handle = PyRef (length (heap w))
       /\ dict_get (heap w') new_handle "restart" = Ok (PyStr "no")
       /\ exists record, log w' = log w ++ [(INFO, record)].
Proof.
  destruct (plugin_reconfigure_start handle new_config w)
    as [[msg ->] | [record ->]].
  { intros [= <- <-]. split; [exists []; by rewrite app_nil_r |].
    do 4 (split; [done |]). split; [right; split; [done | by eexists] |].
    done. }
  set (w0 := add_log _ w). intros H.
  assert (Hlog : exists record, log w0 = log w ++ [(INFO, record)])
    by by eexists.
  revert H. unfold bind at 1.
  destruct (deepcopy new_config w0) as [[data | ex] w1] eqn:Hcopy.
  2:{ apply deepcopy_extends in Hcopy as (_ & _ & _ & _ & _ & ->).
      intros [= <- <-]. split; [exists []; by rewrite app_nil_r |].
      do 4 (split; [done |]). split; [by left | done]. }
  apply deepcopy_extends in Hcopy
    as (Hnb & Hob & Htr & Hlg & Henv & [ext Hext] & Hfresh).
  destruct w1 as [h1 nb1 ob1 tr1 lg1 e1].
  cbn [heap next_bus open_buses trace log env] in *. subst.
  change (heap w0) with (heap w) in *.
  unfold bind, setitem, ret, set_heap.
  cbn [heap next_bus open_buses trace log env].
  destruct data as [| | | | l |];
    try (intros [= <- <-]; cbn [heap next_bus open_buses trace log env];
         split; [by eexists |]; do 4 (split; [done |]);
         split; [by left | done]).
  destruct (Hfresh l eq_refl) as [-> Hlt].
  destruct ((heap w ++ ext) !! length (heap w)) as [d' |] eqn:Hd'.
  2:{ apply lookup_ge_None in Hd'. lia. }
  intros [= <- <-]. cbn [heap next_bus open_buses trace log env].
  split; [rewrite insert_app_r_alt by lia; by eexists |].
  do 4 (split; [done |]). split; [by left |].
  intros new_handle [= <-]. split; [done |]. split; [| done].
  unfold dict_get. rewrite list_lookup_insert_eq by done.
  by rewrite lookup_insert_eq.
Qed.

End LifecycleFrame.

(** ** Runs of plugin_init and plugin_reconfigure *)

Section LifecycleRuns.

Context {E : Type} `{HostE : Host E}.

Lemma deepcopy_scalar v (w : world E) :
  is_scalar v = true -> deepcopy v w = (Ok v, w).
Proof.
  intros Hv. unfold deepcopy.
  destruct w as [h nb ob tr lg e].
  destruct v; try done; by destruct recursion_limit.
Qed.

(** X15: plugin_init opens the bus before it finds out that the
    configuration is no dict: on None, a number or a str it raises the
    TypeError of the item assignment, whose text names the class of the
    configuration, and the SMBus object it has opened stays open, with no
    handle to reach it. *)
Theorem plugin_init_non_dict_leaks_bus config (w : world E) e' :
  is_scalar config = true ->
  SMBus_new 1 (env w) = (None, e') ->
  plugin_init config w
  = (Raise (TypeError ("'" +:+ type_name config
                         +:+ "' object does not support item assignment")),
     World (heap w) (S (next_bus w)) ({[next_bus w]} ∪ open_buses w)
           (trace w) (log w) e').
Proof.
  intros Hc Hopen. unfold plugin_init, bind at 1.
  rewrite (deepcopy_scalar _ _ Hc). unfold bind at 1, SMBus. rewrite Hopen.
  by destruct config.
Qed.

(** X16: when the bus cannot be opened, plugin_init raises the exception of
    the open as it is: no handle is returned, no transport is opened, nothing
    is logged, and the objects of the caller are as they were. *)
Theorem plugin_init_open_failure (w : world E) l d n ex e' :
  heap w !! l = Some d ->
  json_value (heap w) (S n) (PyRef l) ->
  (S n <= recursion_limit)%nat ->
  SMBus_new 1 (env w) = (Some ex, e') ->
  exists w',
    plugin_init (PyRef l) w = (Raise ex, w')
    /\ open_buses w' = open_buses w /\ next_bus w' = next_bus w
    /\ log w' = log w /\ trace w' = trace w
    /\ exists ext, heap w' = heap w ++ ext.
Proof.
  intros Hd Hj Hn Hopen.
  destruct (deepcopy_and_tag w l d n "bus" (PyBus (next_bus w)) Hd Hj Hn)
    as (h' & d' & Hcopy & Hext & _).
  eexists. unfold plugin_init, bind at 1. rewrite Hcopy.
  unfold bind at 1, SMBus. cbn [env set_heap]. rewrite Hopen.
  split; [reflexivity |]. unfold set_env.
  cbn [heap next_bus open_buses trace log env]. by repeat split.
Qed.

(** The run of plugin_init on a JSON document. *)
Lemma plugin_init_run (w : world E) l d n e' :
  heap w !! l = Some d ->
  json_value (heap w) (S n) (PyRef l) ->
  (S n <= recursion_limit)%nat ->
  SMBus_new 1 (env w) = (None, e') ->
  exists h' d',
    h' !! length (heap w) = Some d'
    /\ plugin_init (PyRef l) w
       = (Ok (PyRef (length (heap w))),
          World (<[length (heap w) := <["bus" := PyBus (next_bus w)]> d']> h')
                (S (next_bus w)) ({[next_bus w]} ∪ open_buses w)
                (trace w) (log w ++ [(INFO, "AM2315 initialized")]) e')
    /\ forall k v,
         k <> "bus" -> d !! k = Some v ->
         exists v',
           dict_get (<[length (heap w) := <["bus" := PyBus (next_bus w)]> d']> h')
                    (PyRef (length (heap w))) k = Ok v'
           /\ same_value (heap w)
                (<[length (heap w) := <["bus" := PyBus (next_bus w)]> d']> h')
                v v'.
Proof.
  intros Hd Hj Hn Hopen.
  destruct (deepcopy_and_tag w l d n "bus" (PyBus (next_bus w)) Hd Hj Hn)
    as (h' & d' & Hcopy & _ & Hd' & _ & Hprop).
  exists h', d'. split; [done |].
  unfold plugin_init, bind at 1. rewrite Hcopy.
  unfold bind at 1, SMBus. cbn [env set_heap]. rewrite Hopen.
  unfold bind, setitem, logger_info, ret, add_log, set_heap.
  cbn [heap next_bus open_buses trace log env]. rewrite Hd'.
  split; [reflexivity |].
  by destruct (Hprop _ (fun _ _ => eq_refl)) as (_ & Hfield & _).
Qed.

Lemma same_value_item (h1 h2 : list (gmap string pyval)) x y key s :
  same_value h1 h2 x y ->
  dict_get h1 x key = Ok (PyStr s) -> dict_get h2 y key = Ok (PyStr s).
Proof.
  intros Hs. destruct Hs as [| | | | | l1 l2 d1 d2 Hd1 Hd2 Hdom Hitems];
    try done.
  unfold dict_get. rewrite Hd1, Hd2.
  destruct (d1 !! key) as [v1 |] eqn:Hv1; [| done]. intros [= ->].
  assert (is_Some (d2 !! key)) as [v2 Hv2].
  { apply elem_of_dom. rewrite <- Hdom. apply elem_of_dom. by eexists. }
  rewrite Hv2. pose proof (Hitems _ _ _ Hv1 Hv2) as Hv. by inversion Hv.
Qed.

(** X17: the handle that plugin_init returns for a configuration whose
    i2cAddress and assetName items carry str values is a session handle:
    plugin_poll finds the newly opened bus, the configured address and the
    template in it. *)
Theorem plugin_init_makes_a_session (w : world E) l d n e' item1 item2 a t :
  heap w !! l = Some d ->
  json_value (heap w) (S n) (PyRef l) ->
  (S n <= recursion_limit)%nat ->
  SMBus_new 1 (env w) = (None, e') ->
  d !! "i2cAddress" = Some item1 ->
  dict_get (heap w) item1 "value" = Ok (PyStr a) ->
  d !! "assetName" = Some item2 ->
  dict_get (heap w) item2 "value" = Ok (PyStr t) ->
  exists handle w',
    plugin_init (PyRef l) w = (Ok handle, w')
    /\ session (heap w') handle (next_bus w) a t.
Proof.
  intros Hd Hj Hn Hopen Hi1 Hv1 Hi2 Hv2.
  destruct (plugin_init_run w l d n e' Hd Hj Hn Hopen)
    as (h' & d' & Hd' & Hrun & Hfield).
  eexists _, _. split; [exact Hrun |]. cbn [heap].
  split.
  { unfold dict_get.
    rewrite list_lookup_insert_eq by by eapply lookup_lt_Some.
    by rewrite lookup_insert_eq. }
  split.
  - destruct (Hfield "i2cAddress" item1) as (v' & Hg & Hs); [done | done |].
    exists v'. split; [done |]. by eapply same_value_item.
  - destruct (Hfield "assetName" item2) as (v' & Hg & Hs); [done | done |].
    exists v'. split; [done |]. by eapply same_value_item.
Qed.

(** X18: a handle that plugin_reconfigure has made from a configuration
    without a "bus" item cannot be polled: plugin_poll raises KeyError for
    "bus", as the bare exception, makes no call on the transport and logs
    nothing.  The old handle is any object whose text line 177 can build;
    what it holds is not carried over. *)
Theorem poll_after_reconfigure_fails (w : world E) handle old l d n :
  heap w !! l = Some d ->
  json_value (heap w) (S n) (PyRef l) ->
  (S n <= recursion_limit)%nat ->
  (S (S n) <= str_recursion_limit)%nat ->
  py_str handle w = (Ok old, w) ->
  d !! "bus" = None ->
  exists new_handle w',
    plugin_reconfigure handle (PyRef l) w = (Ok new_handle, w')
    /\ plugin_poll new_handle w' = (Raise (KeyError "bus"), w').
Proof.
  intros Hd Hj Hn Hs Hold Hbus.
  destruct (py_str_json w (S n) (PyRef l) Hj Hs) as [new Hnew].
  destruct (plugin_reconfigure_logs handle (PyRef l) w old new Hold Hnew)
    as [record ->].
  set (w1 := add_log _ w).
  assert (Hw1 : heap w1 = heap w) by done.
  destruct (deepcopy_and_tag w1 l d n "restart" (PyStr "no"))
    as (h' & d' & Hcopy & _ & Hd' & _ & Hprop);
    [by rewrite Hw1 | by rewrite Hw1 | done |].
  rewrite Hw1 in *.
  eexists _, _. unfold bind at 1. rewrite Hcopy.
  unfold bind, setitem, ret, set_heap.
  cbn [heap next_bus open_buses trace log env]. rewrite Hd'.
  split; [reflexivity |].
  apply plugin_poll_prelude_raise.
  unfold poll_prelude, bind at 1, getitem at 1.
  cbn [heap].
  destruct (Hprop _ (fun _ _ => eq_refl)) as (_ & _ & Habsent).
  by rewrite (Habsent "bus").
Qed.

End LifecycleRuns.

(** ** The module-level configuration *)

Section ModuleLevelProperties.

Context {E : Type} `{HostE : Host E}.

Lemma load_DEFAULT_CONFIG_run (w : world E) :
  load_DEFAULT_CONFIG w
  = (Ok (PyRef (4 + length (heap w))),
     set_heap (heap w ++ default_config_dicts (length (heap w))) w).
Proof.
  destruct w as [h nb ob tr lg e].
  unfold load_DEFAULT_CONFIG, bind, new_dict, set_heap, default_config_dicts.
  cbn [heap next_bus open_buses trace log env].
  rewrite !length_app. cbn [length].
  rewrite <- !app_assoc. cbn [app].
  rewrite !Nat.add_1_r. reflexivity.
Qed.

(** X19: plugin_info hands out the module's configuration object itself, not
    a copy: what a caller stores in the dict under "config" of one result is
    found under "config" of the next result. *)
Theorem plugin_info_shares_the_defaults (w : world E) c d key v :
  heap w !! c = Some d ->
  fst (bind (plugin_info (PyRef c)) (fun info1 =>
       bind (getitem info1 "config") (fun config1 =>
       bind (setitem config1 key v) (fun _ =>
       bind (plugin_info (PyRef c)) (fun info2 =>
       bind (getitem info2 "config") (fun config2 =>
       bind (getitem config2 key) (fun found =>
       ret (info1, info2, found))))))) w)
  = Ok (PyRef (length (heap w)), PyRef (S (length (heap w))), v).
Proof.
  intros Hc. destruct w as [h nb ob tr lg e]. cbn [heap] in Hc.
  pose proof (lookup_lt_Some _ _ _ Hc) as Hlt.
  unfold bind at 1, plugin_info at 1, new_dict, set_heap.
  cbn [heap next_bus open_buses trace log env].
  unfold bind at 1, getitem at 1, dict_get.
  cbn [heap next_bus open_buses trace log env].
  rewrite lookup_app_r, Nat.sub_diag by lia. cbn [lookup list_lookup].
  rewrite lookup_insert_ne, lookup_insert_ne, lookup_insert_ne,
    lookup_insert_ne, lookup_insert_ne, lookup_insert_eq by done.
  unfold bind at 1, setitem at 1, set_heap.
  cbn [heap next_bus open_buses trace log env].
  rewrite (lookup_app_l_Some _ _ _ _ Hc).
  unfold bind at 1.
  cbn [heap next_bus open_buses trace log env].
  unfold plugin_info, new_dict, set_heap.
  cbn [heap next_bus open_buses trace log env].
  rewrite length_insert, length_app. cbn [length].
  unfold bind at 1, getitem at 1, dict_get.
  cbn [heap next_bus open_buses trace log env].
  rewrite lookup_app_r by (rewrite length_insert, length_app; simpl; lia).
  rewrite length_insert, length_app. cbn [length].
  rewrite Nat.sub_diag. cbn [lookup list_lookup].
  rewrite lookup_insert_ne, lookup_insert_ne, lookup_insert_ne,
    lookup_insert_ne, lookup_insert_ne, lookup_insert_eq by done.
  unfold bind, getitem, ret, dict_get.
  cbn [heap next_bus open_buses trace log env fst].
  rewrite lookup_app_l by (rewrite length_insert, length_app; simpl; lia).
  rewrite list_lookup_insert_eq by (rewrite length_app; simpl; lia).
  rewrite lookup_insert_eq. cbn [fst].
  by rewrite Nat.add_1_r.
Qed.

Lemma same_value_missing (h1 h2 : list (gmap string pyval)) x y key :
  same_value h1 h2 x y ->
  dict_get h1 x key = Raise (KeyError key) ->
  dict_get h2 y key = Raise (KeyError key).
Proof.
  intros Hs. destruct Hs as [| | | | | l1 l2 d1 d2 Hd1 Hd2 Hdom Hitems];
    try done.
  unfold dict_get. rewrite Hd1, Hd2.
  destruct (d1 !! key) as [v1 |] eqn:Hv1; [done |]. intros _.
  assert (d2 !! key = None) as ->; [| done].
  apply not_elem_of_dom. rewrite <- Hdom. by apply not_elem_of_dom.
Qed.

Lemma default_config_lookup (h : list (gmap string pyval)) i :
  (h ++ default_config_dicts (length h)) !! (i + length h)%nat
  = default_config_dicts (length h) !! i.
Proof. rewrite lookup_app_r by lia. f_equal. lia. Qed.

Lemma strings_json (h : list (gmap string pyval)) (d : gmap string pyval) l :
  h !! l = Some d ->
  map_Forall (fun _ v => exists s, v = PyStr s) d ->
  json_value h 1 (PyRef l).
Proof.
  intros Hl Hd. apply (json_dict h 0 l d Hl).
  intros k v Hk. destruct (Hd k v Hk) as [s ->]. constructor.
Qed.

Lemma default_config_json (h : list (gmap string pyval)) :
  json_value (h ++ default_config_dicts (length h)) 2
             (PyRef (4 + length h)).
Proof.
  eapply json_dict; [apply (default_config_lookup h 4) |].
  cbn [default_config_dicts lookup list_lookup].
  intros k v Hk.
  repeat (apply lookup_insert_Some in Hk as [[_ <-] | [_ Hk]];
          [ eapply strings_json;
            [ first [ apply (default_config_lookup h 0)
                    | apply (default_config_lookup h 1)
                    | apply (default_config_lookup h 2)
                    | apply (default_config_lookup h 3) ] | ];
            cbn [default_config_dicts lookup list_lookup];
            unfold default_plugin_item, default_assetName_item,
              default_i2cAddress_item, default_pollInterval_item;
            repeat (apply map_Forall_insert_2; [by eexists |]);
            apply map_Forall_empty
          | ]).
  by rewrite lookup_empty in Hk.
Qed.

(** X20: the declared defaults carry "default" entries and no "value" entry:
    a handle that plugin_init makes from [_DEFAULT_CONFIG] as the module
    declares it cannot be polled, plugin_poll raises KeyError for "value"
    before it reaches the transport. *)
Theorem declared_defaults_have_no_values (w : world E) e' :
  (2 <= recursion_limit)%nat ->
  SMBus_new 1 (env w) = (None, e') ->
  exists config w1 handle w2,
    load_DEFAULT_CONFIG w = (Ok config, w1)
    /\ plugin_init config w1 = (Ok handle, w2)
    /\ plugin_poll handle w2 = (Raise (KeyError "value"), w2).
Proof.
  intros Hlimit Hopen.
  eexists _, _. rewrite load_DEFAULT_CONFIG_run.
  set (w1 := set_heap _ w).
  assert (Hh1 : heap w1 = heap w ++ default_config_dicts (length (heap w)))
    by done.
  assert (Hd : heap w1 !! (4 + length (heap w))%nat
               = default_config_dicts (length (heap w)) !! 4%nat).
  { rewrite Hh1. apply default_config_lookup. }
  cbn [default_config_dicts lookup list_lookup] in Hd.
  assert (Hj : json_value (heap w1) 2 (PyRef (4 + length (heap w)))).
  { rewrite Hh1. apply default_config_json. }
  destruct (plugin_init_run w1 _ _ 1 e' Hd Hj Hlimit Hopen)
    as (h' & d' & Hd' & Hrun & Hfield).
  eexists _, _. split; [reflexivity |]. split; [exact Hrun |].
  apply plugin_poll_prelude_raise.
  destruct (Hfield "i2cAddress" (PyRef (S (S (length (heap w))))))
    as (v' & Hget & Hsame); [done | done |].
  assert (Hmissing : dict_get (heap w1) (PyRef (S (S (length (heap w)))))
                       "value" = Raise (KeyError "value")).
  { pose proof (default_config_lookup (heap w) 2) as H2.
    cbn [Nat.add] in H2. unfold dict_get. rewrite Hh1, H2. reflexivity. }
  pose proof (same_value_missing _ _ _ _ _ Hsame Hmissing) as Hv.
  unfold poll_prelude, bind, getitem.
  cbn [heap]. rewrite Hget, Hv.
  unfold dict_get at 1.
  rewrite list_lookup_insert_eq by by eapply lookup_lt_Some.
  by rewrite lookup_insert_eq.
Qed.

End ModuleLevelProperties.

(** ** The properties above on the scripted host *)

Lemma poll_read_failure_witness :
  fst (plugin_poll (PyRef 4%nat)
         (Scenario.session_with
            (Scenario.answering (Raise (OSError "[Errno 5] Input/output error")))))
  = Raise (DataRetrievalError (OSError "[Errno 5] Input/output error")).
Proof.
  rewrite (poll_read_failure (PyRef 4%nat) _ 0 (PyStr "0x5c") "am2315/0x5C/"
             (Some (OSError "[Errno 121] Remote I/O error"))
             (Sim.Sim None [None]
                [Raise (OSError "[Errno 5] Input/output error")] 0)
             (Sim.Sim None []
                [Raise (OSError "[Errno 5] Input/output error")] 0)
             (OSError "[Errno 5] Input/output error")
             (Sim.Sim None [] [] 0));
    [reflexivity | vm_compute; reflexivity ..].
Defined.

Lemma poll_malformed_response_witness :
  fst (plugin_poll (PyRef 4%nat)
         (Scenario.session_with (Scenario.answering (Ok [3; 4; 1]))))
  = Raise (DataRetrievalError (IndexError "bytearray index out of range")).
Proof.
  destruct (poll_malformed_response (PyRef 4%nat)
              (Scenario.session_with (Scenario.answering (Ok [3; 4; 1])))
              0 (PyStr "0x5c") "am2315/0x5C/"
              (Some (OSError "[Errno 121] Remote I/O error"))
              (Sim.Sim None [None] [Ok [3; 4; 1]] 0)
              (Sim.Sim None [] [Ok [3; 4; 1]] 0)
              [3; 4; 1] (Sim.Sim None [] [] 0)) as [_ H];
    [vm_compute; reflexivity .. |].
  rewrite H; [reflexivity | repeat constructor; lia | simpl; lia].
Defined.

Lemma poll_ignores_extra_bytes_witness :
  fst (plugin_poll (PyRef 4%nat)
         (Scenario.session_with
            (Scenario.answering (Ok (Sim.good_response ++ [7; 7])))))
  = Ok (PyRef 9%nat).
Proof.
  rewrite (poll_ignores_extra_bytes (PyRef 4%nat) _ 0 (PyStr "0x5c")
             "am2315/0x5C/"
             (Some (OSError "[Errno 121] Remote I/O error"))
             (Sim.Sim None [None] [Ok (Sim.good_response ++ [7; 7])] 0)
             (Sim.Sim None [] [Ok (Sim.good_response ++ [7; 7])] 0)
             (Sim.Sim None [] [] 0)
             3 4 1 2 1 8 81 130 [7; 7]
             "2018-06-01 12:00:00.000000+00:00" (Sim.Sim None [] [] 1)
             "00000000-0000-4000-8000-000000000001" (Sim.Sim None [] [] 2));
    [ vm_compute; reflexivity
    | vm_compute; reflexivity
    | vm_compute; reflexivity
    | vm_compute; reflexivity
    | vm_compute; reflexivity
    | repeat constructor; lia
    | vm_compute; reflexivity
    | vm_compute; reflexivity ].
Defined.

Lemma poll_configuration_errors_witness :
  plugin_poll (PyRef 8%nat) Scenario.reconfigured
  = (Raise (KeyError "bus"), Scenario.reconfigured)
  /\ plugin_poll (PyRef 4%nat) Scenario.tab_address
     = (Raise (ValueError
                 "invalid literal for int() with base 16: '\tZZ'"),
        Scenario.tab_address).
Proof.
  split.
  - destruct (poll_configuration_errors Scenario.reconfigured 8%nat
                (heap Scenario.reconfigured !!! 8%nat)) as [H _];
      [vm_compute; reflexivity |].
    apply H. vm_compute; reflexivity.
  - destruct (poll_configuration_errors Scenario.tab_address 4%nat
                (heap Scenario.tab_address !!! 4%nat)) as (_ & _ & H & _);
      [vm_compute; reflexivity |].
    apply (H (PyBus 0) (PyRef 7%nat) (String "009" "ZZ"));
      vm_compute; reflexivity.
Defined.

Lemma poll_without_bus_object_witness :
  fst (plugin_poll (PyRef 4%nat) Scenario.without_bus_object)
  = Raise (DataRetrievalError
             (AttributeError
                "'NoneType' object has no attribute 'write_i2c_block_data'"))
  /\ log (snd (plugin_poll (PyRef 4%nat) Scenario.without_bus_object))
     = [(ERROR, "AM2315 exception: 'NoneType' object has no attribute 'write_i2c_block_data'")].
Proof.
  rewrite (poll_without_bus_object (PyRef 4%nat) Scenario.without_bus_object
             PyNone (PyStr "0x5c") "am2315/0x5C/");
    [split; reflexivity | vm_compute; reflexivity | discriminate].
Defined.

Lemma poll_call_protocol_witness :
  (trace (snd (plugin_poll (PyRef 4%nat) (Sim.session_world Sim.good_response)))
   = trace (Sim.session_world Sim.good_response)
   /\ exists ex,
        fst (plugin_poll (PyRef 4%nat) (Sim.session_world Sim.good_response))
        = Raise ex)
  \/ exists b addr,
       (trace (snd (plugin_poll (PyRef 4%nat)
                      (Sim.session_world Sim.good_response)))
        = trace (Sim.session_world Sim.good_response)
          ++ [WriteBlock b addr 3 [0; 4]; WriteBlock b addr 3 [0; 4]]
        /\ exists ex,
             fst (plugin_poll (PyRef 4%nat)
                    (Sim.session_world Sim.good_response))
             = Raise ex)
       \/ trace (snd (plugin_poll (PyRef 4%nat)
                        (Sim.session_world Sim.good_response)))
          = trace (Sim.session_world Sim.good_response) ++ poll_calls b addr.
Proof.
  apply (poll_call_protocol (PyRef 4%nat)
           (Sim.session_world Sim.good_response)).
  apply surjective_pairing.
Defined.

Lemma poll_outcomes_witness :
  exists cause,
    fst (plugin_poll (PyRef 4%nat) (Sim.ready "am2315/%M/" "0x5C" Sim.deaf))
    = Raise (DataRetrievalError cause)
    /\ log (snd (plugin_poll (PyRef 4%nat)
                   (Sim.ready "am2315/%M/" "0x5C" Sim.deaf)))
       = log (Sim.ready "am2315/%M/" "0x5C" Sim.deaf)
         ++ [(ERROR, "AM2315 exception: " +:+ exn_str cause)]
    /\ heap (snd (plugin_poll (PyRef 4%nat)
                    (Sim.ready "am2315/%M/" "0x5C" Sim.deaf)))
       = heap (Sim.ready "am2315/%M/" "0x5C" Sim.deaf).
Proof.
  destruct (poll_outcomes (PyRef 4%nat)
              (Sim.ready "am2315/%M/" "0x5C" Sim.deaf)
              (snd (plugin_poll (PyRef 4%nat)
                      (Sim.ready "am2315/%M/" "0x5C" Sim.deaf)))
              (Raise (DataRetrievalError
                        (OSError "[Errno 121] Remote I/O error"))))
    as [[H _] | [H | (ex & Hr & _ & H)]].
  - vm_compute; reflexivity.
  - discriminate H.
  - destruct H as (cause & Hr & Hl & Hh). exists cause.
    split; [| by split]. rewrite <- Hr. vm_compute; reflexivity.
  - injection Hr as <-.
    by destruct (H (OSError "[Errno 121] Remote I/O error")).
Defined.

Lemma polls_can_be_repeated_witness :
  session (heap (snd (plugin_poll (PyRef 4%nat)
                        (snd (plugin_poll (PyRef 4%nat)
                                (Sim.session_world Sim.good_response))))))
          (PyRef 4%nat) 0 "0x5C" "am2315/%M/".
Proof.
  destruct (polls_can_be_repeated (PyRef 4%nat)
              (Sim.session_world Sim.good_response)
              (snd (plugin_poll (PyRef 4%nat)
                      (Sim.session_world Sim.good_response)))
              (snd (plugin_poll (PyRef 4%nat)
                      (snd (plugin_poll (PyRef 4%nat)
                              (Sim.session_world Sim.good_response)))))
              0 "0x5C" "am2315/%M/"
              (fst (plugin_poll (PyRef 4%nat)
                      (Sim.session_world Sim.good_response)))
              (fst (plugin_poll (PyRef 4%nat)
                      (snd (plugin_poll (PyRef 4%nat)
                              (Sim.session_world Sim.good_response))))))
    as (_ & H & _).
  - session_by_eval.
  - apply surjective_pairing.
  - apply surjective_pairing.
  - exact H.
Defined.

Lemma plugin_init_keeps_the_store_witness :
  trace (snd (plugin_init (PyRef 0%nat) Sim.fresh_world))
  = trace Sim.fresh_world.
Proof.
  destruct (plugin_init_keeps_the_store (PyRef 0%nat) Sim.fresh_world
              (snd (plugin_init (PyRef 0%nat) Sim.fresh_world))
              (fst (plugin_init (PyRef 0%nat) Sim.fresh_world)))
    as (_ & H & _); [apply surjective_pairing | exact H].
Defined.

Lemma plugin_reconfigure_keeps_the_store_witness :
  open_buses (snd (plugin_reconfigure (PyRef 4%nat) (PyRef 0%nat)
                     (Sim.session_world Sim.good_response)))
  = open_buses (Sim.session_world Sim.good_response).
Proof.
  destruct (plugin_reconfigure_keeps_the_store (PyRef 4%nat) (PyRef 0%nat)
              (Sim.session_world Sim.good_response)
              (snd (plugin_reconfigure (PyRef 4%nat) (PyRef 0%nat)
                      (Sim.session_world Sim.good_response)))
              (fst (plugin_reconfigure (PyRef 4%nat) (PyRef 0%nat)
                      (Sim.session_world Sim.good_response))))
    as (_ & _ & H & _); [apply surjective_pairing | exact H].
Defined.

Lemma plugin_init_non_dict_leaks_bus_witness :
  fst (plugin_init (PyStr "am2315") Sim.fresh_world)
  = Raise (TypeError "'str' object does not support item assignment")
  /\ elements (open_buses (snd (plugin_init (PyStr "am2315") Sim.fresh_world)))
     = [0%nat].
Proof.
  rewrite (plugin_init_non_dict_leaks_bus (PyStr "am2315") Sim.fresh_world
             (Sim.asleep_then Sim.good_response));
    [split; vm_compute; reflexivity | reflexivity | vm_compute; reflexivity].
Defined.

Lemma plugin_init_open_failure_witness :
  fst (plugin_init (PyRef 0%nat) (Sim.start Sim.default_heap Scenario.no_device))
  = Raise (OSError "[Errno 2] No such file or directory").
Proof.
  destruct (plugin_init_open_failure
              (Sim.start Sim.default_heap Scenario.no_device)
              0%nat Sim.category 1%nat
              (OSError "[Errno 2] No such file or directory")
              Scenario.no_device) as (w' & Hrun & _).
  - vm_compute; reflexivity.
  - apply (category_json _ "am2315/%M/" "0x5C" "5000");
      vm_compute; reflexivity.
  - apply Nat.leb_le. vm_compute; reflexivity.
  - vm_compute; reflexivity.
  - by rewrite Hrun.
Defined.

Lemma plugin_init_makes_a_session_witness :
  exists handle w',
    plugin_init (PyRef 0%nat) Sim.fresh_world = (Ok handle, w')
    /\ session (heap w') handle 0 "0x5C" "am2315/%M/".
Proof.
  apply (plugin_init_makes_a_session Sim.fresh_world 0%nat Sim.category 1%nat
           (Sim.asleep_then Sim.good_response) (PyRef 2%nat) (PyRef 1%nat)).
  - vm_compute; reflexivity.
  - apply (category_json _ "am2315/%M/" "0x5C" "5000");
      vm_compute; reflexivity.
  - apply Nat.leb_le. vm_compute; reflexivity.
  - vm_compute; reflexivity.
  - vm_compute; reflexivity.
  - vm_compute; reflexivity.
  - vm_compute; reflexivity.
  - vm_compute; reflexivity.
Defined.

Lemma poll_after_reconfigure_fails_witness :
  exists new_handle w',
    plugin_reconfigure (PyRef 4%nat) (PyRef 0%nat)
      (Sim.session_world Sim.good_response) = (Ok new_handle, w')
    /\ plugin_poll new_handle w' = (Raise (KeyError "bus"), w').
Proof.
  apply (poll_after_reconfigure_fails (Sim.session_world Sim.good_response)
           (PyRef 4%nat) "<object>" 0%nat Sim.category 1%nat).
  - vm_compute; reflexivity.
  - apply (category_json _ "am2315/%M/" "0x5C" "5000");
      vm_compute; reflexivity.
  - apply Nat.leb_le. vm_compute; reflexivity.
  - apply Nat.leb_le. vm_compute; reflexivity.
  - vm_compute; reflexivity.
  - vm_compute; reflexivity.
Defined.

Lemma plugin_info_shares_the_defaults_witness :
  fst (bind (plugin_info (PyRef 4%nat)) (fun info1 =>
       bind (getitem info1 "config") (fun config1 =>
       bind (setitem config1 "note" (PyStr "set by the caller")) (fun _ =>
       bind (plugin_info (PyRef 4%nat)) (fun info2 =>
       bind (getitem info2 "config") (fun config2 =>
       bind (getitem config2 "note") (fun found =>
       ret (info1, info2, found))))))) Scenario.loaded)
  = Ok (PyRef (length (heap Scenario.loaded)),
        PyRef (S (length (heap Scenario.loaded))),
        PyStr "set by the caller").
Proof.
  apply (plugin_info_shares_the_defaults Scenario.loaded 4%nat
           (heap Scenario.loaded !!! 4%nat)).
  vm_compute; reflexivity.
Defined.

Lemma declared_defaults_have_no_values_witness :
  exists config w1 handle w2,
    load_DEFAULT_CONFIG (Sim.start [] (Sim.asleep_then Sim.good_response))
    = (Ok config, w1)
    /\ plugin_init config w1 = (Ok handle, w2)
    /\ plugin_poll handle w2 = (Raise (KeyError "value"), w2).
Proof.
  apply (declared_defaults_have_no_values
           (Sim.start [] (Sim.asleep_then Sim.good_response))
           (Sim.asleep_then Sim.good_response)).
  - apply Nat.leb_le. vm_compute; reflexivity.
  - vm_compute; reflexivity.
Defined.
